(** * phpipam-sdk-go: the controllers for sections, addresses, subnets,
      VLANs and layer-2 domains

    A shallow embedding of the five controller packages and of the wire
    (DTO) / domain record pairs they convert between, followed by the
    properties established about them.

    Conventions of the embedding:
    - a Go [int] is a [Z]; the conversions between [int] and
      [phpipam.JSONIntString] neither add nor lose bits, so no wrap-around
      appears anywhere in the code that is modelled;
    - a Go slice is [Go.slice], which keeps the nil slice apart from an
      allocated slice, and a Go map is [Go.gomap], a [gmap] over strings
      that keeps the nil map apart in the same way;
    - the controller methods run in a state monad over the remote server's
      state and the log of the calls made on the embedded [client.Client];
    - a method with a pointer receiver takes the receiver and returns it
      updated; a pointer destination [out] is passed by value and its new
      content is returned. *)

From Stdlib Require Import ZArith DecimalString DecimalPos DecimalZ.
From stdpp Require Import base option list strings gmap fin_maps.

Open Scope Z_scope.
Open Scope string_scope.

(** ** The Go values the code handles *)

Module Go.

Definition int : Type := Z.

(* an error value is nil or carries its message *)
Definition error : Type := option string.

(* strconv.Itoa, and the verb %d of fmt.Sprintf *)
Definition Itoa (i : int) : string := NilZero.string_of_int (Z.to_int i).

(* A slice: the nil slice, or a slice with a backing array. *)
Inductive slice (A : Type) : Type :=
| nil_slice
| make_slice (elems : list A).
Arguments nil_slice {A}.
Arguments make_slice {A} elems.

(* the elements a range loop visits, in order *)
Definition elems {A} (s : slice A) : list A :=
  match s with
  | nil_slice => []
  | make_slice l => l
  end.

(* len(s) *)
Definition len {A} (s : slice A) : Z := Z.of_nat (length (elems s)).

(* s == nil *)
Definition is_nil {A} (s : slice A) : bool :=
  match s with
  | nil_slice => true
  | make_slice _ => false
  end.

(* append(s, x): the result always has a backing array *)
Definition append {A} (s : slice A) (x : A) : slice A :=
  make_slice (elems s ++ [x]).

Set Warnings "-register-all".

(* A value of type interface{} as it occurs in the custom field maps: what
   encoding/json stores when it decodes into interface{}, and the int and
   string values the code stores itself. A decoded JSON number is kept as
   its literal. *)
Inductive iface : Type :=
| i_nil
| i_bool (b : bool)
| i_int (i : int)
| i_number (literal : string)
| i_string (s : string)
| i_array (l : list iface)
| i_object (l : list (string * iface)).

(* A map with string keys: the nil map, or an allocated map. *)
Inductive gomap (V : Type) : Type :=
| nil_map
| make_map (m : gmap string V).
Arguments nil_map {V}.
Arguments make_map {V} m.

(* the entries of a map; the nil map has none *)
Definition entries {V} (m : gomap V) : gmap string V :=
  match m with
  | nil_map => ∅
  | make_map g => g
  end.

(* _, ok := m[k] *)
Definition has_key {V} (m : gomap V) (k : string) : Prop :=
  is_Some (entries m !! k).

(* The order in which a range loop visits the entries of a map is chosen by
   the runtime. An instance of this class is one such choice; the only
   thing known about it is that every entry is visited once. *)
Class RangeOrder : Type := {
  range : forall V : Type, gmap string V -> list (string * V);
  range_visits_all : forall (V : Type) (m : gmap string V),
      range V m ≡ₚ map_to_list m
}.
Arguments range {_ V} m.

(* for k := range m *)
Definition range_keys `{RangeOrder} {V} (m : gomap V) : list string :=
  (range (entries m)).*1.

(* for k, v := range m *)
Definition range_entries `{RangeOrder} {V} (m : gomap V) : list (string * V) :=
  range (entries m).

End Go.

(** ** Package phpipam: the scalar types shared by all controllers *)

Module phpipam.

(** Modelled from the spec: the declaration of [JSONIntString] is not among
    the sources, which only convert it to and from [int]. Data model,
    Normalized Integer: "after decoding, the value is held as a native
    integer internally". The type is kept apart from [int], as it is in
    Go: [JSONIntString_of] is the conversion [phpipam.JSONIntString(i)]
    and [int_of] is the conversion [int(j)]. *)
Inductive JSONIntString : Type :=
| JSONIntString_of (i : Go.int).

Definition int_of (j : JSONIntString) : Go.int :=
  match j with
  | JSONIntString_of i => i
  end.

(** Modelled from the spec: the declaration of [BoolIntString] is not among
    the sources. Data model, Normalized Boolean: "internal canonical form
    is a boolean". *)
Inductive BoolIntString : Type :=
| BoolIntString_of (b : bool).

(** Modelled from the spec: the declaration of [CustomField] is not among
    the sources, which only range over the keys of a schema. Component
    design: the schema maps a "field name" to a "type descriptor". *)
Record CustomField : Type := { descriptor : string }.

(** *** The JSON form of a Normalized Integer *)

(* the token found at a field of a JSON object *)
Inductive Token : Type :=
| TNumber (literal : string)
| TString (s : string)
| TNull
| TAbsent.

Inductive DecodeError : Type :=
| MalformedScalar (t : Token).

(** Modelled from the spec: the reading of a decimal integer literal; the
    sources hold no parser. Component design: "a JSON string containing an
    integer literal". *)
Definition Atoi (s : string) : option Go.int :=
  Z.of_int <$> NilZero.int_of_string s.

(** Modelled from the spec: [JSONIntString.UnmarshalJSON] is not among the
    sources. Component design: "accepts a bare JSON number, a JSON string
    containing an integer literal, or an absent/null/empty token (-> zero).
    Fails with a MalformedScalar error if the string is non-numeric." *)
Definition decode (t : Token) : DecodeError + JSONIntString :=
  match t with
  | TAbsent | TNull => inr (JSONIntString_of 0)
  | TString "" => inr (JSONIntString_of 0)
  | TString s | TNumber s =>
      match Atoi s with
      | Some i => inr (JSONIntString_of i)
      | None => inl (MalformedScalar t)
      end
  end.

(** Modelled from the spec: [JSONIntString.MarshalJSON] is not among the
    sources. Component design: "always emits the value as a quoted numeric
    string (...), or omits the field entirely if the value is the zero
    default and the field is marked optional." *)
Definition encode (optional : bool) (j : JSONIntString) : Token :=
  if optional && (int_of j =? 0)%Z then TAbsent
  else TString (Go.Itoa (int_of j)).

End phpipam.

(** ** Struct values seen through their fields *)

Module reflect.

(* the value of a struct field together with its Go type *)
Inductive Value : Type :=
| VInt (i : Go.int)
| VString (s : string)
| VJSONIntString (j : phpipam.JSONIntString)
| VBoolIntString (b : phpipam.BoolIntString)
| VMap (m : Go.gomap Go.iface).

(* whether a field holds the zero value of its type: 0, the empty string,
   false, the nil map *)
Definition is_zero (v : Value) : bool :=
  match v with
  | VInt i => (i =? 0)%Z
  | VString s => String.eqb s ""
  | VJSONIntString j => (phpipam.int_of j =? 0)%Z
  | VBoolIntString (phpipam.BoolIntString_of b) => negb b
  | VMap Go.nil_map => true
  | VMap (Go.make_map _) => false
  end.

End reflect.

(** ** The wire and domain records of the five packages

    Each struct is a module holding the record [t], its zero value, its
    fields in declaration order and, for a domain struct, the two mapping
    methods. [FromDTO] assigns every field of its receiver, [ToDTO] builds
    a fresh wire record. *)

Module addresses.

Module AddressDTO.
Record t := mk {
  ID : phpipam.JSONIntString;
  SubnetID : phpipam.JSONIntString;
  IPAddress : string;
  IsGateway : phpipam.BoolIntString;
  Description : string;
  Hostname : string;
  MACAddress : string;
  Owner : string;
  Tag : phpipam.JSONIntString;
  PTRIgnore : phpipam.BoolIntString;
  PTRRecordID : phpipam.JSONIntString;
  DeviceID : phpipam.JSONIntString;
  Port : string;
  Note : string;
  LastSeen : string;
  ExcludePing : phpipam.BoolIntString;
  EditDate : string;
  CustomFields : Go.gomap Go.iface
}.

(* the zero value of the struct *)
Definition zero : t := {|
  ID := phpipam.JSONIntString_of 0;
  SubnetID := phpipam.JSONIntString_of 0;
  IPAddress := "";
  IsGateway := phpipam.BoolIntString_of false;
  Description := "";
  Hostname := "";
  MACAddress := "";
  Owner := "";
  Tag := phpipam.JSONIntString_of 0;
  PTRIgnore := phpipam.BoolIntString_of false;
  PTRRecordID := phpipam.JSONIntString_of 0;
  DeviceID := phpipam.JSONIntString_of 0;
  Port := "";
  Note := "";
  LastSeen := "";
  ExcludePing := phpipam.BoolIntString_of false;
  EditDate := "";
  CustomFields := Go.nil_map
|}.

(* the fields of a value in declaration order, each with its Go type *)
Definition fields (x : t) : list (string * reflect.Value) := [
  ("ID", reflect.VJSONIntString (ID x));
  ("SubnetID", reflect.VJSONIntString (SubnetID x));
  ("IPAddress", reflect.VString (IPAddress x));
  ("IsGateway", reflect.VBoolIntString (IsGateway x));
  ("Description", reflect.VString (Description x));
  ("Hostname", reflect.VString (Hostname x));
  ("MACAddress", reflect.VString (MACAddress x));
  ("Owner", reflect.VString (Owner x));
  ("Tag", reflect.VJSONIntString (Tag x));
  ("PTRIgnore", reflect.VBoolIntString (PTRIgnore x));
  ("PTRRecordID", reflect.VJSONIntString (PTRRecordID x));
  ("DeviceID", reflect.VJSONIntString (DeviceID x));
  ("Port", reflect.VString (Port x));
  ("Note", reflect.VString (Note x));
  ("LastSeen", reflect.VString (LastSeen x));
  ("ExcludePing", reflect.VBoolIntString (ExcludePing x));
  ("EditDate", reflect.VString (EditDate x));
  ("CustomFields", reflect.VMap (CustomFields x))
].
End AddressDTO.

Module Address.
Record t := mk {
  ID : Go.int;
  SubnetID : Go.int;
  IPAddress : string;
  IsGateway : phpipam.BoolIntString;
  Description : string;
  Hostname : string;
  MACAddress : string;
  Owner : string;
  Tag : Go.int;
  PTRIgnore : phpipam.BoolIntString;
  PTRRecordID : Go.int;
  DeviceID : Go.int;
  Port : string;
  Note : string;
  LastSeen : string;
  ExcludePing : phpipam.BoolIntString;
  EditDate : string;
  CustomFields : Go.gomap Go.iface
}.

(* the zero value of the struct *)
Definition zero : t := {|
  ID := 0;
  SubnetID := 0;
  IPAddress := "";
  IsGateway := phpipam.BoolIntString_of false;
  Description := "";
  Hostname := "";
  MACAddress := "";
  Owner := "";
  Tag := 0;
  PTRIgnore := phpipam.BoolIntString_of false;
  PTRRecordID := 0;
  DeviceID := 0;
  Port := "";
  Note := "";
  LastSeen := "";
  ExcludePing := phpipam.BoolIntString_of false;
  EditDate := "";
  CustomFields := Go.nil_map
|}.

(* the fields of a value in declaration order, each with its Go type *)
Definition fields (x : t) : list (string * reflect.Value) := [
  ("ID", reflect.VInt (ID x));
  ("SubnetID", reflect.VInt (SubnetID x));
  ("IPAddress", reflect.VString (IPAddress x));
  ("IsGateway", reflect.VBoolIntString (IsGateway x));
  ("Description", reflect.VString (Description x));
  ("Hostname", reflect.VString (Hostname x));
  ("MACAddress", reflect.VString (MACAddress x));
  ("Owner", reflect.VString (Owner x));
  ("Tag", reflect.VInt (Tag x));
  ("PTRIgnore", reflect.VBoolIntString (PTRIgnore x));
  ("PTRRecordID", reflect.VInt (PTRRecordID x));
  ("DeviceID", reflect.VInt (DeviceID x));
  ("Port", reflect.VString (Port x));
  ("Note", reflect.VString (Note x));
  ("LastSeen", reflect.VString (LastSeen x));
  ("ExcludePing", reflect.VBoolIntString (ExcludePing x));
  ("EditDate", reflect.VString (EditDate x));
  ("CustomFields", reflect.VMap (CustomFields x))
].

(* func (a *Address) FromDTO(dto *AddressDTO) *)
Definition FromDTO (a : t) (dto : AddressDTO.t) : t := {|
  ID := phpipam.int_of (AddressDTO.ID dto);
  SubnetID := phpipam.int_of (AddressDTO.SubnetID dto);
  IPAddress := AddressDTO.IPAddress dto;
  IsGateway := AddressDTO.IsGateway dto;
  Description := AddressDTO.Description dto;
  Hostname := AddressDTO.Hostname dto;
  MACAddress := AddressDTO.MACAddress dto;
  Owner := AddressDTO.Owner dto;
  Tag := phpipam.int_of (AddressDTO.Tag dto);
  PTRIgnore := AddressDTO.PTRIgnore dto;
  PTRRecordID := phpipam.int_of (AddressDTO.PTRRecordID dto);
  DeviceID := phpipam.int_of (AddressDTO.DeviceID dto);
  Port := AddressDTO.Port dto;
  Note := AddressDTO.Note dto;
  LastSeen := AddressDTO.LastSeen dto;
  ExcludePing := AddressDTO.ExcludePing dto;
  EditDate := AddressDTO.EditDate dto;
  CustomFields := AddressDTO.CustomFields dto
|}.

(* func (a *Address) ToDTO() AddressDTO *)
Definition ToDTO (a : t) : AddressDTO.t := {|
  AddressDTO.ID := phpipam.JSONIntString_of (ID a);
  AddressDTO.SubnetID := phpipam.JSONIntString_of (SubnetID a);
  AddressDTO.IPAddress := IPAddress a;
  AddressDTO.IsGateway := IsGateway a;
  AddressDTO.Description := Description a;
  AddressDTO.Hostname := Hostname a;
  AddressDTO.MACAddress := MACAddress a;
  AddressDTO.Owner := Owner a;
  AddressDTO.Tag := phpipam.JSONIntString_of (Tag a);
  AddressDTO.PTRIgnore := PTRIgnore a;
  AddressDTO.PTRRecordID := phpipam.JSONIntString_of (PTRRecordID a);
  AddressDTO.DeviceID := phpipam.JSONIntString_of (DeviceID a);
  AddressDTO.Port := Port a;
  AddressDTO.Note := Note a;
  AddressDTO.LastSeen := LastSeen a;
  AddressDTO.ExcludePing := ExcludePing a;
  AddressDTO.EditDate := EditDate a;
  AddressDTO.CustomFields := CustomFields a
|}.
End Address.

End addresses.

Module subnets.

Module SubnetDTO.
Record t := mk {
  ID : phpipam.JSONIntString;
  SubnetAddress : string;
  Mask : phpipam.JSONIntString;
  Description : string;
  SectionID : phpipam.JSONIntString;
  LinkedSubnet : phpipam.JSONIntString;
  VLANID : phpipam.JSONIntString;
  VRFID : phpipam.JSONIntString;
  MasterSubnetID : phpipam.JSONIntString;
  NameserverID : phpipam.JSONIntString;
  Nameservers : Go.gomap Go.iface;
  ShowName : phpipam.BoolIntString;
  Permissions : string;
  DNSRecursive : phpipam.BoolIntString;
  DNSRecords : phpipam.BoolIntString;
  AllowRequests : phpipam.BoolIntString;
  ScanAgent : phpipam.JSONIntString;
  PingSubnet : phpipam.BoolIntString;
  DiscoverSubnet : phpipam.BoolIntString;
  IsFolder : phpipam.BoolIntString;
  IsPool : phpipam.BoolIntString;
  IsFull : phpipam.BoolIntString;
  Threshold : phpipam.JSONIntString;
  Location : phpipam.JSONIntString;
  EditDate : string;
  Gateway : Go.gomap Go.iface;
  GatewayID : string;
  CustomFields : Go.gomap Go.iface;
  ResolveDNS : phpipam.BoolIntString
}.

(* the zero value of the struct *)
Definition zero : t := {|
  ID := phpipam.JSONIntString_of 0;
  SubnetAddress := "";
  Mask := phpipam.JSONIntString_of 0;
  Description := "";
  SectionID := phpipam.JSONIntString_of 0;
  LinkedSubnet := phpipam.JSONIntString_of 0;
  VLANID := phpipam.JSONIntString_of 0;
  VRFID := phpipam.JSONIntString_of 0;
  MasterSubnetID := phpipam.JSONIntString_of 0;
  NameserverID := phpipam.JSONIntString_of 0;
  Nameservers := Go.nil_map;
  ShowName := phpipam.BoolIntString_of false;
  Permissions := "";
  DNSRecursive := phpipam.BoolIntString_of false;
  DNSRecords := phpipam.BoolIntString_of false;
  AllowRequests := phpipam.BoolIntString_of false;
  ScanAgent := phpipam.JSONIntString_of 0;
  PingSubnet := phpipam.BoolIntString_of false;
  DiscoverSubnet := phpipam.BoolIntString_of false;
  IsFolder := phpipam.BoolIntString_of false;
  IsPool := phpipam.BoolIntString_of false;
  IsFull := phpipam.BoolIntString_of false;
  Threshold := phpipam.JSONIntString_of 0;
  Location := phpipam.JSONIntString_of 0;
  EditDate := "";
  Gateway := Go.nil_map;
  GatewayID := "";
  CustomFields := Go.nil_map;
  ResolveDNS := phpipam.BoolIntString_of false
|}.

(* the fields of a value in declaration order, each with its Go type *)
Definition fields (x : t) : list (string * reflect.Value) := [
  ("ID", reflect.VJSONIntString (ID x));
  ("SubnetAddress", reflect.VString (SubnetAddress x));
  ("Mask", reflect.VJSONIntString (Mask x));
  ("Description", reflect.VString (Description x));
  ("SectionID", reflect.VJSONIntString (SectionID x));
  ("LinkedSubnet", reflect.VJSONIntString (LinkedSubnet x));
  ("VLANID", reflect.VJSONIntString (VLANID x));
  ("VRFID", reflect.VJSONIntString (VRFID x));
  ("MasterSubnetID", reflect.VJSONIntString (MasterSubnetID x));
  ("NameserverID", reflect.VJSONIntString (NameserverID x));
  ("Nameservers", reflect.VMap (Nameservers x));
  ("ShowName", reflect.VBoolIntString (ShowName x));
  ("Permissions", reflect.VString (Permissions x));
  ("DNSRecursive", reflect.VBoolIntString (DNSRecursive x));
  ("DNSRecords", reflect.VBoolIntString (DNSRecords x));
  ("AllowRequests", reflect.VBoolIntString (AllowRequests x));
  ("ScanAgent", reflect.VJSONIntString (ScanAgent x));
  ("PingSubnet", reflect.VBoolIntString (PingSubnet x));
  ("DiscoverSubnet", reflect.VBoolIntString (DiscoverSubnet x));
  ("IsFolder", reflect.VBoolIntString (IsFolder x));
  ("IsPool", reflect.VBoolIntString (IsPool x));
  ("IsFull", reflect.VBoolIntString (IsFull x));
  ("Threshold", reflect.VJSONIntString (Threshold x));
  ("Location", reflect.VJSONIntString (Location x));
  ("EditDate", reflect.VString (EditDate x));
  ("Gateway", reflect.VMap (Gateway x));
  ("GatewayID", reflect.VString (GatewayID x));
  ("CustomFields", reflect.VMap (CustomFields x));
  ("ResolveDNS", reflect.VBoolIntString (ResolveDNS x))
].
End SubnetDTO.

Module Subnet.
Record t := mk {
  ID : Go.int;
  SubnetAddress : string;
  Mask : phpipam.JSONIntString;
  Description : string;
  SectionID : Go.int;
  LinkedSubnet : Go.int;
  VLANID : Go.int;
  VRFID : Go.int;
  MasterSubnetID : Go.int;
  NameserverID : Go.int;
  Nameservers : Go.gomap Go.iface;
  ShowName : phpipam.BoolIntString;
  Permissions : string;
  DNSRecursive : phpipam.BoolIntString;
  DNSRecords : phpipam.BoolIntString;
  AllowRequests : phpipam.BoolIntString;
  ScanAgent : Go.int;
  PingSubnet : phpipam.BoolIntString;
  DiscoverSubnet : phpipam.BoolIntString;
  IsFolder : phpipam.BoolIntString;
  IsPool : phpipam.BoolIntString;
  IsFull : phpipam.BoolIntString;
  Threshold : Go.int;
  Location : Go.int;
  EditDate : string;
  Gateway : Go.gomap Go.iface;
  GatewayID : string;
  CustomFields : Go.gomap Go.iface;
  ResolveDNS : phpipam.BoolIntString
}.

(* the zero value of the struct *)
Definition zero : t := {|
  ID := 0;
  SubnetAddress := "";
  Mask := phpipam.JSONIntString_of 0;
  Description := "";
  SectionID := 0;
  LinkedSubnet := 0;
  VLANID := 0;
  VRFID := 0;
  MasterSubnetID := 0;
  NameserverID := 0;
  Nameservers := Go.nil_map;
  ShowName := phpipam.BoolIntString_of false;
  Permissions := "";
  DNSRecursive := phpipam.BoolIntString_of false;
  DNSRecords := phpipam.BoolIntString_of false;
  AllowRequests := phpipam.BoolIntString_of false;
  ScanAgent := 0;
  PingSubnet := phpipam.BoolIntString_of false;
  DiscoverSubnet := phpipam.BoolIntString_of false;
  IsFolder := phpipam.BoolIntString_of false;
  IsPool := phpipam.BoolIntString_of false;
  IsFull := phpipam.BoolIntString_of false;
  Threshold := 0;
  Location := 0;
  EditDate := "";
  Gateway := Go.nil_map;
  GatewayID := "";
  CustomFields := Go.nil_map;
  ResolveDNS := phpipam.BoolIntString_of false
|}.

(* the fields of a value in declaration order, each with its Go type *)
Definition fields (x : t) : list (string * reflect.Value) := [
  ("ID", reflect.VInt (ID x));
  ("SubnetAddress", reflect.VString (SubnetAddress x));
  ("Mask", reflect.VJSONIntString (Mask x));
  ("Description", reflect.VString (Description x));
  ("SectionID", reflect.VInt (SectionID x));
  ("LinkedSubnet", reflect.VInt (LinkedSubnet x));
  ("VLANID", reflect.VInt (VLANID x));
  ("VRFID", reflect.VInt (VRFID x));
  ("MasterSubnetID", reflect.VInt (MasterSubnetID x));
  ("NameserverID", reflect.VInt (NameserverID x));
  ("Nameservers", reflect.VMap (Nameservers x));
  ("ShowName", reflect.VBoolIntString (ShowName x));
  ("Permissions", reflect.VString (Permissions x));
  ("DNSRecursive", reflect.VBoolIntString (DNSRecursive x));
  ("DNSRecords", reflect.VBoolIntString (DNSRecords x));
  ("AllowRequests", reflect.VBoolIntString (AllowRequests x));
  ("ScanAgent", reflect.VInt (ScanAgent x));
  ("PingSubnet", reflect.VBoolIntString (PingSubnet x));
  ("DiscoverSubnet", reflect.VBoolIntString (DiscoverSubnet x));
  ("IsFolder", reflect.VBoolIntString (IsFolder x));
  ("IsPool", reflect.VBoolIntString (IsPool x));
  ("IsFull", reflect.VBoolIntString (IsFull x));
  ("Threshold", reflect.VInt (Threshold x));
  ("Location", reflect.VInt (Location x));
  ("EditDate", reflect.VString (EditDate x));
  ("Gateway", reflect.VMap (Gateway x));
  ("GatewayID", reflect.VString (GatewayID x));
  ("CustomFields", reflect.VMap (CustomFields x));
  ("ResolveDNS", reflect.VBoolIntString (ResolveDNS x))
].

(* func (s *Subnet) FromDTO(subnetDTO *SubnetDTO) *)
Definition FromDTO (s : t) (subnetDTO : SubnetDTO.t) : t := {|
  ID := phpipam.int_of (SubnetDTO.ID subnetDTO);
  SubnetAddress := SubnetDTO.SubnetAddress subnetDTO;
  Mask := SubnetDTO.Mask subnetDTO;
  Description := SubnetDTO.Description subnetDTO;
  SectionID := phpipam.int_of (SubnetDTO.SectionID subnetDTO);
  LinkedSubnet := phpipam.int_of (SubnetDTO.LinkedSubnet subnetDTO);
  VLANID := phpipam.int_of (SubnetDTO.VLANID subnetDTO);
  VRFID := phpipam.int_of (SubnetDTO.VRFID subnetDTO);
  MasterSubnetID := phpipam.int_of (SubnetDTO.MasterSubnetID subnetDTO);
  NameserverID := phpipam.int_of (SubnetDTO.NameserverID subnetDTO);
  Nameservers := SubnetDTO.Nameservers subnetDTO;
  ShowName := SubnetDTO.ShowName subnetDTO;
  Permissions := SubnetDTO.Permissions subnetDTO;
  DNSRecursive := SubnetDTO.DNSRecursive subnetDTO;
  DNSRecords := SubnetDTO.DNSRecords subnetDTO;
  AllowRequests := SubnetDTO.AllowRequests subnetDTO;
  ScanAgent := phpipam.int_of (SubnetDTO.ScanAgent subnetDTO);
  PingSubnet := SubnetDTO.PingSubnet subnetDTO;
  DiscoverSubnet := SubnetDTO.DiscoverSubnet subnetDTO;
  IsFolder := SubnetDTO.IsFolder subnetDTO;
  IsPool := SubnetDTO.IsPool subnetDTO;
  IsFull := SubnetDTO.IsFull subnetDTO;
  Threshold := phpipam.int_of (SubnetDTO.Threshold subnetDTO);
  Location := phpipam.int_of (SubnetDTO.Location subnetDTO);
  EditDate := SubnetDTO.EditDate subnetDTO;
  Gateway := SubnetDTO.Gateway subnetDTO;
  GatewayID := SubnetDTO.GatewayID subnetDTO;
  CustomFields := SubnetDTO.CustomFields subnetDTO;
  ResolveDNS := SubnetDTO.ResolveDNS subnetDTO
|}.

(* func (s *Subnet) ToDTO() SubnetDTO *)
Definition ToDTO (s : t) : SubnetDTO.t := {|
  SubnetDTO.ID := phpipam.JSONIntString_of (ID s);
  SubnetDTO.SubnetAddress := SubnetAddress s;
  SubnetDTO.Mask := Mask s;
  SubnetDTO.Description := Description s;
  SubnetDTO.SectionID := phpipam.JSONIntString_of (SectionID s);
  SubnetDTO.LinkedSubnet := phpipam.JSONIntString_of (LinkedSubnet s);
  SubnetDTO.VLANID := phpipam.JSONIntString_of (VLANID s);
  SubnetDTO.VRFID := phpipam.JSONIntString_of (VRFID s);
  SubnetDTO.MasterSubnetID := phpipam.JSONIntString_of (MasterSubnetID s);
  SubnetDTO.NameserverID := phpipam.JSONIntString_of (NameserverID s);
  SubnetDTO.Nameservers := Nameservers s;
  SubnetDTO.ShowName := ShowName s;
  SubnetDTO.Permissions := Permissions s;
  SubnetDTO.DNSRecursive := DNSRecursive s;
  SubnetDTO.DNSRecords := DNSRecords s;
  SubnetDTO.AllowRequests := AllowRequests s;
  SubnetDTO.ScanAgent := phpipam.JSONIntString_of (ScanAgent s);
  SubnetDTO.PingSubnet := PingSubnet s;
  SubnetDTO.DiscoverSubnet := DiscoverSubnet s;
  SubnetDTO.IsFolder := IsFolder s;
  SubnetDTO.IsPool := IsPool s;
  SubnetDTO.IsFull := IsFull s;
  SubnetDTO.Threshold := phpipam.JSONIntString_of (Threshold s);
  SubnetDTO.Location := phpipam.JSONIntString_of (Location s);
  SubnetDTO.EditDate := EditDate s;
  SubnetDTO.Gateway := Gateway s;
  SubnetDTO.GatewayID := GatewayID s;
  SubnetDTO.CustomFields := CustomFields s;
  SubnetDTO.ResolveDNS := ResolveDNS s
|}.
End Subnet.

End subnets.

Module sections.

Module SectionDTO.
Record t := mk {
  ID : phpipam.JSONIntString;
  Name : string;
  Description : string;
  MasterSection : phpipam.JSONIntString;
  Permissions : string;
  StrictMode : phpipam.BoolIntString;
  SubnetOrdering : string;
  Order : phpipam.JSONIntString;
  EditDate : string;
  ShowVLAN : phpipam.BoolIntString;
  ShowVRF : phpipam.BoolIntString;
  ShowSupernetOnly : phpipam.BoolIntString;
  DNS : phpipam.JSONIntString
}.

(* the zero value of the struct *)
Definition zero : t := {|
  ID := phpipam.JSONIntString_of 0;
  Name := "";
  Description := "";
  MasterSection := phpipam.JSONIntString_of 0;
  Permissions := "";
  StrictMode := phpipam.BoolIntString_of false;
  SubnetOrdering := "";
  Order := phpipam.JSONIntString_of 0;
  EditDate := "";
  ShowVLAN := phpipam.BoolIntString_of false;
  ShowVRF := phpipam.BoolIntString_of false;
  ShowSupernetOnly := phpipam.BoolIntString_of false;
  DNS := phpipam.JSONIntString_of 0
|}.

(* the fields of a value in declaration order, each with its Go type *)
Definition fields (x : t) : list (string * reflect.Value) := [
  ("ID", reflect.VJSONIntString (ID x));
  ("Name", reflect.VString (Name x));
  ("Description", reflect.VString (Description x));
  ("MasterSection", reflect.VJSONIntString (MasterSection x));
  ("Permissions", reflect.VString (Permissions x));
  ("StrictMode", reflect.VBoolIntString (StrictMode x));
  ("SubnetOrdering", reflect.VString (SubnetOrdering x));
  ("Order", reflect.VJSONIntString (Order x));
  ("EditDate", reflect.VString (EditDate x));
  ("ShowVLAN", reflect.VBoolIntString (ShowVLAN x));
  ("ShowVRF", reflect.VBoolIntString (ShowVRF x));
  ("ShowSupernetOnly", reflect.VBoolIntString (ShowSupernetOnly x));
  ("DNS", reflect.VJSONIntString (DNS x))
].
End SectionDTO.

Module Section.
Record t := mk {
  ID : Go.int;
  Name : string;
  Description : string;
  MasterSection : Go.int;
  Permissions : string;
  StrictMode : phpipam.BoolIntString;
  SubnetOrdering : string;
  Order : Go.int;
  EditDate : string;
  ShowVLAN : phpipam.BoolIntString;
  ShowVRF : phpipam.BoolIntString;
  ShowSupernetOnly : phpipam.BoolIntString;
  DNS : Go.int
}.

(* the zero value of the struct *)
Definition zero : t := {|
  ID := 0;
  Name := "";
  Description := "";
  MasterSection := 0;
  Permissions := "";
  StrictMode := phpipam.BoolIntString_of false;
  SubnetOrdering := "";
  Order := 0;
  EditDate := "";
  ShowVLAN := phpipam.BoolIntString_of false;
  ShowVRF := phpipam.BoolIntString_of false;
  ShowSupernetOnly := phpipam.BoolIntString_of false;
  DNS := 0
|}.

(* the fields of a value in declaration order, each with its Go type *)
Definition fields (x : t) : list (string * reflect.Value) := [
  ("ID", reflect.VInt (ID x));
  ("Name", reflect.VString (Name x));
  ("Description", reflect.VString (Description x));
  ("MasterSection", reflect.VInt (MasterSection x));
  ("Permissions", reflect.VString (Permissions x));
  ("StrictMode", reflect.VBoolIntString (StrictMode x));
  ("SubnetOrdering", reflect.VString (SubnetOrdering x));
  ("Order", reflect.VInt (Order x));
  ("EditDate", reflect.VString (EditDate x));
  ("ShowVLAN", reflect.VBoolIntString (ShowVLAN x));
  ("ShowVRF", reflect.VBoolIntString (ShowVRF x));
  ("ShowSupernetOnly", reflect.VBoolIntString (ShowSupernetOnly x));
  ("DNS", reflect.VInt (DNS x))
].

(* func (s *Section) FromDTO(sectionDTO *SectionDTO) *)
Definition FromDTO (s : t) (sectionDTO : SectionDTO.t) : t := {|
  ID := phpipam.int_of (SectionDTO.ID sectionDTO);
  Name := SectionDTO.Name sectionDTO;
  Description := SectionDTO.Description sectionDTO;
  MasterSection := phpipam.int_of (SectionDTO.MasterSection sectionDTO);
  Permissions := SectionDTO.Permissions sectionDTO;
  StrictMode := SectionDTO.StrictMode sectionDTO;
  SubnetOrdering := SectionDTO.SubnetOrdering sectionDTO;
  Order := phpipam.int_of (SectionDTO.Order sectionDTO);
  EditDate := SectionDTO.EditDate sectionDTO;
  ShowVLAN := SectionDTO.ShowVLAN sectionDTO;
  ShowVRF := SectionDTO.ShowVRF sectionDTO;
  ShowSupernetOnly := SectionDTO.ShowSupernetOnly sectionDTO;
  DNS := phpipam.int_of (SectionDTO.DNS sectionDTO)
|}.

(* func (s *Section) ToDTO() SectionDTO *)
Definition ToDTO (s : t) : SectionDTO.t := {|
  SectionDTO.ID := phpipam.JSONIntString_of (ID s);
  SectionDTO.Name := Name s;
  SectionDTO.Description := Description s;
  SectionDTO.MasterSection := phpipam.JSONIntString_of (MasterSection s);
  SectionDTO.Permissions := Permissions s;
  SectionDTO.StrictMode := StrictMode s;
  SectionDTO.SubnetOrdering := SubnetOrdering s;
  SectionDTO.Order := phpipam.JSONIntString_of (Order s);
  SectionDTO.EditDate := EditDate s;
  SectionDTO.ShowVLAN := ShowVLAN s;
  SectionDTO.ShowVRF := ShowVRF s;
  SectionDTO.ShowSupernetOnly := ShowSupernetOnly s;
  SectionDTO.DNS := phpipam.JSONIntString_of (DNS s)
|}.
End Section.

End sections.

Module vlans.

Module VLANDTO.
Record t := mk {
  ID : phpipam.JSONIntString;
  DomainID : phpipam.JSONIntString;
  Name : string;
  Number : phpipam.JSONIntString;
  Description : string;
  EditDate : string;
  CustomFields : Go.gomap Go.iface
}.

(* the zero value of the struct *)
Definition zero : t := {|
  ID := phpipam.JSONIntString_of 0;
  DomainID := phpipam.JSONIntString_of 0;
  Name := "";
  Number := phpipam.JSONIntString_of 0;
  Description := "";
  EditDate := "";
  CustomFields := Go.nil_map
|}.

(* the fields of a value in declaration order, each with its Go type *)
Definition fields (x : t) : list (string * reflect.Value) := [
  ("ID", reflect.VJSONIntString (ID x));
  ("DomainID", reflect.VJSONIntString (DomainID x));
  ("Name", reflect.VString (Name x));
  ("Number", reflect.VJSONIntString (Number x));
  ("Description", reflect.VString (Description x));
  ("EditDate", reflect.VString (EditDate x));
  ("CustomFields", reflect.VMap (CustomFields x))
].
End VLANDTO.

Module VLAN.
Record t := mk {
  ID : Go.int;
  DomainID : Go.int;
  Name : string;
  Number : Go.int;
  Description : string;
  EditDate : string;
  CustomFields : Go.gomap Go.iface
}.

(* the zero value of the struct *)
Definition zero : t := {|
  ID := 0;
  DomainID := 0;
  Name := "";
  Number := 0;
  Description := "";
  EditDate := "";
  CustomFields := Go.nil_map
|}.

(* the fields of a value in declaration order, each with its Go type *)
Definition fields (x : t) : list (string * reflect.Value) := [
  ("ID", reflect.VInt (ID x));
  ("DomainID", reflect.VInt (DomainID x));
  ("Name", reflect.VString (Name x));
  ("Number", reflect.VInt (Number x));
  ("Description", reflect.VString (Description x));
  ("EditDate", reflect.VString (EditDate x));
  ("CustomFields", reflect.VMap (CustomFields x))
].

(* func (v *VLAN) FromDTO(dto *VLANDTO) *)
Definition FromDTO (v : t) (dto : VLANDTO.t) : t := {|
  ID := phpipam.int_of (VLANDTO.ID dto);
  DomainID := phpipam.int_of (VLANDTO.DomainID dto);
  Name := VLANDTO.Name dto;
  Number := phpipam.int_of (VLANDTO.Number dto);
  Description := VLANDTO.Description dto;
  EditDate := VLANDTO.EditDate dto;
  CustomFields := VLANDTO.CustomFields dto
|}.

(* func (v *VLAN) ToDTO() VLANDTO *)
Definition ToDTO (v : t) : VLANDTO.t := {|
  VLANDTO.ID := phpipam.JSONIntString_of (ID v);
  VLANDTO.DomainID := phpipam.JSONIntString_of (DomainID v);
  VLANDTO.Name := Name v;
  VLANDTO.Number := phpipam.JSONIntString_of (Number v);
  VLANDTO.Description := Description v;
  VLANDTO.EditDate := EditDate v;
  VLANDTO.CustomFields := CustomFields v
|}.
End VLAN.

End vlans.

Module l2domains.

Module L2DomainDTO.
Record t := mk {
  ID : phpipam.JSONIntString;
  Name : string;
  Description : string;
  Sections : string
}.

(* the zero value of the struct *)
Definition zero : t := {|
  ID := phpipam.JSONIntString_of 0;
  Name := "";
  Description := "";
  Sections := ""
|}.

(* the fields of a value in declaration order, each with its Go type *)
Definition fields (x : t) : list (string * reflect.Value) := [
  ("ID", reflect.VJSONIntString (ID x));
  ("Name", reflect.VString (Name x));
  ("Description", reflect.VString (Description x));
  ("Sections", reflect.VString (Sections x))
].
End L2DomainDTO.

Module L2Domain.
Record t := mk {
  ID : Go.int;
  Name : string;
  Description : string;
  Sections : string
}.

(* the zero value of the struct *)
Definition zero : t := {|
  ID := 0;
  Name := "";
  Description := "";
  Sections := ""
|}.

(* the fields of a value in declaration order, each with its Go type *)
Definition fields (x : t) : list (string * reflect.Value) := [
  ("ID", reflect.VInt (ID x));
  ("Name", reflect.VString (Name x));
  ("Description", reflect.VString (Description x));
  ("Sections", reflect.VString (Sections x))
].

(* func (ld *L2Domain) FromDTO(dto *L2DomainDTO) *)
Definition FromDTO (ld : t) (dto : L2DomainDTO.t) : t := {|
  ID := phpipam.int_of (L2DomainDTO.ID dto);
  Name := L2DomainDTO.Name dto;
  Description := L2DomainDTO.Description dto;
  Sections := L2DomainDTO.Sections dto
|}.

(* func (ld *L2Domain) ToDTO() L2DomainDTO *)
Definition ToDTO (ld : t) : L2DomainDTO.t := {|
  L2DomainDTO.ID := phpipam.JSONIntString_of (ID ld);
  L2DomainDTO.Name := Name ld;
  L2DomainDTO.Description := Description ld;
  L2DomainDTO.Sections := Sections ld
|}.
End L2Domain.

End l2domains.

(** ** Package client: the dispatcher every controller embeds

    The package is not among the sources. The controllers use two of its
    methods, [SendRequest] and [GetCustomFieldsSchema]; both are taken as
    the operations of an arbitrary [Client], and every call made on them
    is appended to a log. *)

Module client.

Inductive Kind : Type := KSection | KAddress | KSubnet | KVLAN | KL2Domain.

Inductive Layer : Type := Wire | Domain.

(* the struct of a resource kind at each layer *)
Definition record (l : Layer) (k : Kind) : Type :=
  match l, k with
  | Wire, KSection => sections.SectionDTO.t
  | Wire, KAddress => addresses.AddressDTO.t
  | Wire, KSubnet => subnets.SubnetDTO.t
  | Wire, KVLAN => vlans.VLANDTO.t
  | Wire, KL2Domain => l2domains.L2DomainDTO.t
  | Domain, KSection => sections.Section.t
  | Domain, KAddress => addresses.Address.t
  | Domain, KSubnet => subnets.Subnet.t
  | Domain, KVLAN => vlans.VLAN.t
  | Domain, KL2Domain => l2domains.L2Domain.t
  end.

(* The Go type behind the pointer passed as destination [out]. *)
Inductive Dest : Type :=
| PtrRecord (l : Layer) (k : Kind)
| PtrSlice (l : Layer) (k : Kind)
| PtrString
| PtrEmptyStruct.

(* what the destination points to *)
Definition content (d : Dest) : Type :=
  match d with
  | PtrRecord l k => record l k
  | PtrSlice l k => Go.slice (record l k)
  | PtrString => string
  | PtrEmptyStruct => unit
  end.

(* The request bodies of the methods embedded below: &struct{}{} and a
   pointer to a parameter map. *)
Inductive Body : Type :=
| EmptyStruct
| Params (params : Go.gomap Go.iface).

(* a call made on the client *)
Inductive Call : Type :=
| CallSendRequest (method uri : string) (body : Body) (out : Dest)
| CallGetCustomFieldsSchema (controller : string).

(* a request that changes the remote state: any method but GET *)
Definition mutating (c : Call) : bool :=
  match c with
  | CallSendRequest method _ _ _ => negb (String.eqb method "GET")
  | CallGetCustomFieldsSchema _ => false
  end.

(** Modelled from the spec: package client is not among the sources.
    External interfaces: "sendRequest(method, path, requestBody, out
    *destination) -> error (...) decodes the JSON response into destination,
    and returns a transport- or decode-level error on failure", and
    "getCustomFieldsSchema(resourceFamily) -> mapping<fieldName,
    descriptor>, error". Nothing more is assumed: a client is any pair of
    functions of these shapes over a remote state; in particular it may
    leave anything in the destination when it returns an error. *)
Class Client : Type := {
  Server : Type;
  sendRequest : forall d : Dest,
      Server -> string -> string -> Body -> content d ->
      Server * (content d * Go.error);
  getCustomFieldsSchema :
      Server -> string ->
      Server * (Go.gomap phpipam.CustomField * Go.error)
}.

(* the remote state and the calls made so far, oldest first *)
Record World `{Client} : Type := {
  server : Server;
  calls : list Call
}.

(* a computation that may call the client *)
Definition M `{Client} (A : Type) : Type := World -> A * World.

#[export] Instance M_ret `{Client} : MRet M := fun A a w => (a, w).

#[export] Instance M_bind `{Client} : MBind M :=
  fun A B f m w => let '(a, w') := m w in f a w'.

(* c.SendRequest(method, uri, in, &out): the content of [out] before the
   call goes in, its content after the call comes back with the error *)
Definition SendRequest `{Client} {d : Dest} (method uri : string)
    (body : Body) (out : content d) : M (content d * Go.error) :=
  fun w =>
    let '(s, r) := sendRequest d (server w) method uri body out in
    (r, {| server := s;
           calls := calls w ++ [CallSendRequest method uri body d] |}).

(* c.Client.GetCustomFieldsSchema(controller) *)
Definition GetCustomFieldsSchema `{Client} (controller : string)
    : M (Go.gomap phpipam.CustomField * Go.error) :=
  fun w =>
    let '(s, r) := getCustomFieldsSchema (server w) controller in
    (r, {| server := s;
           calls := calls w ++ [CallGetCustomFieldsSchema controller] |}).

(* the calls made between two worlds *)
Definition issued `{Client} (w w' : World) : list Call :=
  drop (length (calls w)) (calls w').

End client.

(** ** The controller methods

    The methods of the five [Controller] types, in the order of their
    packages. A named result starts at its zero value; [fmt.Sprintf] is
    written as the concatenation it performs. *)

Module controllers.
Import client.
Import sections addresses subnets vlans l2domains.

Section WithClient.
Context `{Client}.

(** *** Package sections *)

(* ListSections lists all sections. *)
Definition ListSections : M (Go.slice Section.t * Go.error) :=
  let out : Go.slice Section.t := Go.nil_slice in
  let dto : Go.slice SectionDTO.t := Go.nil_slice in
  '(dto, err) ← SendRequest (d := PtrSlice Wire KSection)
                  "GET" "/sections/" EmptyStruct dto;
  let out :=
    foldl (fun out sectionDTO =>
             let section := Section.zero in
             let section := Section.FromDTO section sectionDTO in
             Go.append out section)
          out (Go.elems dto) in
  mret (out, err).

(* GetSectionByID GETs a section via its ID. *)
Definition GetSectionByID (id : Go.int) : M (Section.t * Go.error) :=
  let out := Section.zero in
  let dto := SectionDTO.zero in
  '(dto, err) ← SendRequest (d := PtrRecord Wire KSection)
                  "GET" ("/sections/" +:+ Go.Itoa id +:+ "/") EmptyStruct dto;
  let out := Section.FromDTO out dto in
  mret (out, err).

(* GetSectionByName GETs a section via its name. *)
Definition GetSectionByName (name : string) : M (Section.t * Go.error) :=
  let out := Section.zero in
  let dto := SectionDTO.zero in
  '(dto, err) ← SendRequest (d := PtrRecord Wire KSection)
                  "GET" ("/sections/" +:+ name +:+ "/") EmptyStruct dto;
  let out := Section.FromDTO out dto in
  mret (out, err).

(* GetSubnetsInSection GETs the subnets in a section by section ID. *)
Definition GetSubnetsInSection (id : Go.int)
    : M (Go.slice Subnet.t * Go.error) :=
  let out : Go.slice Subnet.t := Go.nil_slice in
  let dtos : Go.slice SubnetDTO.t := Go.nil_slice in
  '(dtos, err) ← SendRequest (d := PtrSlice Wire KSubnet)
                   "GET" ("/sections/" +:+ Go.Itoa id +:+ "/subnets/")
                   EmptyStruct dtos;
  let out :=
    foldl (fun out subnetDTO =>
             let subnet := Subnet.zero in
             let subnet := Subnet.FromDTO subnet subnetDTO in
             Go.append out subnet)
          out (Go.elems dtos) in
  mret (out, err).

(* DeleteSection deletes a section by sending a DELETE request. All subnets
   and addresses in the section will be deleted as well. *)
Definition DeleteSection (id : Go.int) : M Go.error :=
  '(_, err) ← SendRequest (d := PtrEmptyStruct)
                "DELETE" ("/sections/" +:+ Go.Itoa id +:+ "/") EmptyStruct tt;
  mret err.

(** *** Package addresses *)

(* GetAddressByID GETs an address via its ID. *)
Definition GetAddressByID (id : Go.int) : M (Address.t * Go.error) :=
  let out := Address.zero in
  let dto := AddressDTO.zero in
  '(dto, err) ← SendRequest (d := PtrRecord Wire KAddress)
                  "GET" ("/addresses/" +:+ Go.Itoa id +:+ "/") EmptyStruct dto;
  let out := Address.FromDTO out dto in
  mret (out, err).

(* GetAddressesByIP searches for an address by its IP. *)
Definition GetAddressesByIP (ipaddr : string)
    : M (Go.slice Address.t * Go.error) :=
  let out : Go.slice Address.t := Go.nil_slice in
  let dtos : Go.slice AddressDTO.t := Go.nil_slice in
  '(dtos, err) ← SendRequest (d := PtrSlice Wire KAddress)
                   "GET" ("/addresses/search/" +:+ ipaddr +:+ "/")
                   EmptyStruct dtos;
  let out :=
    foldl (fun out dto =>
             let a := Address.zero in
             let a := Address.FromDTO a dto in
             Go.append out a)
          out (Go.elems dtos) in
  mret (out, err).

(* GetAddressesByIpInSubnet searches for an address by its IP within the
   given subnet. *)
Definition GetAddressesByIpInSubnet (ipaddr : string) (subnetID : Go.int)
    : M (Address.t * Go.error) :=
  let out := Address.zero in
  let dto := AddressDTO.zero in
  '(dto, err) ← SendRequest (d := PtrRecord Wire KAddress)
                  "GET" ("/addresses/" +:+ ipaddr +:+ "/" +:+ Go.Itoa subnetID)
                  EmptyStruct dto;
  let out := Address.FromDTO out dto in
  mret (out, err).

(** *** Package vlans *)

(* GetVLANByID GETs a VLAN via its ID in the PHPIPAM database. *)
Definition GetVLANByID (id : Go.int) : M (VLAN.t * Go.error) :=
  let out := VLAN.zero in
  let dto := VLANDTO.zero in
  '(dto, err) ← SendRequest (d := PtrRecord Wire KVLAN)
                  "GET" ("/vlans/" +:+ Go.Itoa id +:+ "/") EmptyStruct dto;
  let out := VLAN.FromDTO out dto in
  mret (out, err).

(* GetVLANsByNumber GETs a VLAN via its VLAN number. *)
Definition GetVLANsByNumber (id : Go.int) : M (Go.slice VLAN.t * Go.error) :=
  let out : Go.slice VLAN.t := Go.nil_slice in
  let dtos : Go.slice VLANDTO.t := Go.nil_slice in
  '(dtos, err) ← SendRequest (d := PtrSlice Wire KVLAN)
                   "GET" ("/vlans/search/" +:+ Go.Itoa id +:+ "/")
                   EmptyStruct dtos;
  let out :=
    foldl (fun out dto =>
             let vlan := VLAN.zero in
             let vlan := VLAN.FromDTO vlan dto in
             Go.append out vlan)
          out (Go.elems dtos) in
  mret (out, err).

Definition GetVLANsByNumberAndDomainID (vlan_id domain_id : Go.int)
    : M (Go.slice VLAN.t * Go.error) :=
  let out : Go.slice VLAN.t := Go.nil_slice in
  let dtos : Go.slice VLANDTO.t := Go.nil_slice in
  '(dtos, err) ← SendRequest (d := PtrSlice Wire KVLAN)
                   "GET" ("/vlans/search/" +:+ Go.Itoa vlan_id
                          +:+ "/?filter_by=domainId&filter_value="
                          +:+ Go.Itoa domain_id)
                   EmptyStruct dtos;
  let out :=
    foldl (fun out dto =>
             let vlan := VLAN.zero in
             let vlan := VLAN.FromDTO vlan dto in
             Go.append out vlan)
          out (Go.elems dtos) in
  mret (out, err).

(* GetVLANCustomFieldsSchema GETs the custom fields for the vlans
   controller via client.GetCustomFieldsSchema. *)
Definition GetVLANCustomFieldsSchema
    : M (Go.gomap phpipam.CustomField * Go.error) :=
  GetCustomFieldsSchema "vlans".

(* The inner loop of UpdateVLANCustomFields over the keys [ls] of the
   schema: true when it leaves through goto customFieldFound. *)
Fixpoint customFieldFound (k : string) (ls : list string) : bool :=
  match ls with
  | [] => false
  | l :: ls' => if String.eqb k l then true else customFieldFound k ls'
  end.

(* The outer loop of UpdateVLANCustomFields over the keys [ks] of the
   update map: the key at which the loop returns "not found", if any. The
   inner loop ranges over the schema anew for every key; what it finds
   depends on the keys of the schema only, not on their order, so one
   listing [ls] of them serves all its runs. *)
Fixpoint verifyCustomFields (ks ls : list string) : option string :=
  match ks with
  | [] => None
  | k :: ks' =>
      if customFieldFound k ls then verifyCustomFields ks' ls else Some k
  end.

(* fmt.Errorf("Custom field %s not found in schema for controller vlans", k) *)
Definition customFieldNotFound (k : string) : Go.error :=
  Some ("Custom field " +:+ k +:+ " not found in schema for controller vlans").

(* UpdateVLANCustomFields PATCHes the vlan's custom fields. *)
Definition UpdateVLANCustomFields `{Go.RangeOrder} (id : Go.int)
    (name : string) (in_ : Go.gomap Go.iface) : M (string * Go.error) :=
  let message := "" in
  '(schema, err) ← GetVLANCustomFieldsSchema;
  match err with
  | Some _ => mret (message, err)
  | None =>
      match verifyCustomFields (Go.range_keys in_) (Go.range_keys schema) with
      | Some k => mret ("", customFieldNotFound k)
      | None =>
          let params : gmap string Go.iface := ∅ in
          let params :=
            foldl (fun params '(k, v) => <[k := v]> params)
                  params (Go.range_entries in_) in
          let params := <["id" := Go.i_int id]> params in
          let params := <["name" := Go.i_string name]> params in
          '(message, err) ← SendRequest (d := PtrString)
                              "PATCH" "/vlans/" (Params (Go.make_map params))
                              message;
          mret (message, err)
      end
  end.

(** *** Package l2domains *)

(* ListL2Domains lists all l2domains. *)
Definition ListL2Domains : M (Go.slice L2Domain.t * Go.error) :=
  let out : Go.slice L2Domain.t := Go.nil_slice in
  '(out, err) ← SendRequest (d := PtrSlice Domain KL2Domain)
                  "GET" "/l2domains/" EmptyStruct out;
  mret (out, err).

(* GetL2DomainByID GETs a l2domain via its ID. *)
Definition GetL2DomainByID (id : Go.int) : M (L2Domain.t * Go.error) :=
  let out := L2Domain.zero in
  let dto := L2DomainDTO.zero in
  '(dto, err) ← SendRequest (d := PtrRecord Wire KL2Domain)
                  "GET" ("/l2domains/" +:+ Go.Itoa id +:+ "/") EmptyStruct dto;
  let out := L2Domain.FromDTO out dto in
  mret (out, err).

(* GetL2DomainByName GETs a l2domain via its name. *)
Definition GetL2DomainByName (name : string)
    : M (Go.slice L2Domain.t * Go.error) :=
  let out : Go.slice L2Domain.t := Go.nil_slice in
  let dtos : Go.slice L2DomainDTO.t := Go.nil_slice in
  '(dtos, err) ← SendRequest (d := PtrSlice Wire KL2Domain)
                   "GET" ("/l2domains/?filter_by=name&filter_value=" +:+ name)
                   EmptyStruct dtos;
  let out :=
    foldl (fun out dto =>
             let l2Domain := L2Domain.zero in
             let l2Domain := L2Domain.FromDTO l2Domain dto in
             Go.append out l2Domain)
          out (Go.elems dtos) in
  mret (out, err).

(* GetVlansInl2Domain GETs the vlans in a l2domains by l2domain ID. *)
Definition GetVlansInl2Domain (id : Go.int)
    : M (Go.slice VLAN.t * Go.error) :=
  let out : Go.slice VLAN.t := Go.nil_slice in
  let dtos : Go.slice VLANDTO.t := Go.nil_slice in
  '(dtos, err) ← SendRequest (d := PtrSlice Wire KVLAN)
                   "GET" ("/l2domains/" +:+ Go.Itoa id +:+ "/vlans/")
                   EmptyStruct dtos;
  let out :=
    foldl (fun out dto =>
             let vlan := VLAN.zero in
             let vlan := VLAN.FromDTO vlan dto in
             Go.append out vlan)
          out (Go.elems dtos) in
  mret (out, err).

(** *** Package subnets *)

(* GetSubnetByID GETs a subnet via its ID. *)
Definition GetSubnetByID (id : Go.int) : M (Subnet.t * Go.error) :=
  let out := Subnet.zero in
  let dto := SubnetDTO.zero in
  '(dto, err) ← SendRequest (d := PtrRecord Wire KSubnet)
                  "GET" ("/subnets/" +:+ Go.Itoa id +:+ "/") EmptyStruct dto;
  let out := Subnet.FromDTO out dto in
  mret (out, err).

(* GetSubnetsByCIDR GETs a subnet via its CIDR (i.e. 10.10.1.0/24). *)
Definition GetSubnetsByCIDR (cidr : string)
    : M (Go.slice Subnet.t * Go.error) :=
  let out : Go.slice Subnet.t := Go.nil_slice in
  let dtos : Go.slice SubnetDTO.t := Go.nil_slice in
  '(dtos, err) ← SendRequest (d := PtrSlice Wire KSubnet)
                   "GET" ("/subnets/cidr/" +:+ cidr +:+ "/") EmptyStruct dtos;
  let out :=
    foldl (fun out dto =>
             let subnet := Subnet.zero in
             let subnet := Subnet.FromDTO subnet dto in
             Go.append out subnet)
          out (Go.elems dtos) in
  mret (out, err).

Definition GetSubnetsByCIDRAndSection (cidr : string) (section_id : Go.int)
    : M (Go.slice Subnet.t * Go.error) :=
  let out : Go.slice Subnet.t := Go.nil_slice in
  let dtos : Go.slice SubnetDTO.t := Go.nil_slice in
  '(dtos, err) ← SendRequest (d := PtrSlice Wire KSubnet)
                   "GET" ("/subnets/cidr/" +:+ cidr
                          +:+ "/?filter_by=sectionId&filter_value="
                          +:+ Go.Itoa section_id)
                   EmptyStruct dtos;
  let out :=
    foldl (fun out dto =>
             let subnet := Subnet.zero in
             let subnet := Subnet.FromDTO subnet dto in
             Go.append out subnet)
          out (Go.elems dtos) in
  mret (out, err).

(* GetAddressesInSubnet GETs the IP addresses for a specific subnet, via a
   supplied subnet ID. *)
Definition GetAddressesInSubnet (id : Go.int)
    : M (Go.slice Address.t * Go.error) :=
  let out : Go.slice Address.t := Go.nil_slice in
  let dtos : Go.slice AddressDTO.t := Go.nil_slice in
  '(dtos, err) ← SendRequest (d := PtrSlice Wire KAddress)
                   "GET" ("/subnets/" +:+ Go.Itoa id +:+ "/addresses/")
                   EmptyStruct dtos;
  let out :=
    foldl (fun out dto =>
             let address := Address.zero in
             let address := Address.FromDTO address dto in
             Go.append out address)
          out (Go.elems dtos) in
  mret (out, err).

End WithClient.

End controllers.

(** ** The five resource kinds side by side

    The mapping methods, zero values and field lists of the five packages,
    indexed by resource kind, for the statements that range over "every
    resource kind". *)

Module resources.
Import client.

(* the zero value of the struct *)
Definition zero (l : Layer) (k : Kind) : record l k :=
  match l, k with
  | Wire, KSection => sections.SectionDTO.zero
  | Wire, KAddress => addresses.AddressDTO.zero
  | Wire, KSubnet => subnets.SubnetDTO.zero
  | Wire, KVLAN => vlans.VLANDTO.zero
  | Wire, KL2Domain => l2domains.L2DomainDTO.zero
  | Domain, KSection => sections.Section.zero
  | Domain, KAddress => addresses.Address.zero
  | Domain, KSubnet => subnets.Subnet.zero
  | Domain, KVLAN => vlans.VLAN.zero
  | Domain, KL2Domain => l2domains.L2Domain.zero
  end.

(* the fields of a struct value in declaration order *)
Definition fields (l : Layer) (k : Kind)
    : record l k -> list (string * reflect.Value) :=
  match l, k with
  | Wire, KSection => sections.SectionDTO.fields
  | Wire, KAddress => addresses.AddressDTO.fields
  | Wire, KSubnet => subnets.SubnetDTO.fields
  | Wire, KVLAN => vlans.VLANDTO.fields
  | Wire, KL2Domain => l2domains.L2DomainDTO.fields
  | Domain, KSection => sections.Section.fields
  | Domain, KAddress => addresses.Address.fields
  | Domain, KSubnet => subnets.Subnet.fields
  | Domain, KVLAN => vlans.VLAN.fields
  | Domain, KL2Domain => l2domains.L2Domain.fields
  end.

(* receiver.FromDTO(&dto) *)
Definition FromDTO (k : Kind)
    : record Domain k -> record Wire k -> record Domain k :=
  match k with
  | KSection => sections.Section.FromDTO
  | KAddress => addresses.Address.FromDTO
  | KSubnet => subnets.Subnet.FromDTO
  | KVLAN => vlans.VLAN.FromDTO
  | KL2Domain => l2domains.L2Domain.FromDTO
  end.

(* receiver.ToDTO() *)
Definition ToDTO (k : Kind) : record Domain k -> record Wire k :=
  match k with
  | KSection => sections.Section.ToDTO
  | KAddress => addresses.Address.ToDTO
  | KSubnet => subnets.Subnet.ToDTO
  | KVLAN => vlans.VLAN.ToDTO
  | KL2Domain => l2domains.L2Domain.ToDTO
  end.

(* var x T; x.FromDTO(&dto), as every reading method does it *)
Definition decoded (k : Kind) (dto : record Wire k) : record Domain k :=
  FromDTO k (zero Domain k) dto.

End resources.

(** ** Concrete clients and inputs

    Two clients small enough to run the methods on: a server that is down,
    and a server that holds no resources and declares two custom fields
    for VLANs. *)

Module examples.
Import client.

(* every entry once, in the order of [map_to_list] *)
#[export] Instance listing_order : Go.RangeOrder := {|
  Go.range := fun V m => map_to_list m;
  Go.range_visits_all := fun V m => reflexivity (map_to_list m)
|}.

(* A server that is down: every call returns an error and leaves the
   destination as it was. *)
Definition offline : Client := {|
  Server := unit;
  sendRequest := fun d s method uri body out =>
    (s, (out, Some "connection refused"));
  getCustomFieldsSchema := fun s controller =>
    (s, (Go.nil_map, Some "connection refused"))
|}.

(* the answer of the empty server: an empty JSON array for a slice,
   nothing for the other destinations *)
Definition empty_answer (d : Dest) : content d -> content d :=
  match d with
  | PtrSlice l k => fun _ => Go.make_slice []
  | _ => fun out => out
  end.

(* the custom fields the empty server declares for every controller *)
Definition declared : gmap string phpipam.CustomField :=
  {[ "asset_tag" := {| phpipam.descriptor := "varchar(64)" |};
     "notes" := {| phpipam.descriptor := "text" |} ]}.

(* A server that holds no resources: every request succeeds. *)
Definition empty_server : Client := {|
  Server := unit;
  sendRequest := fun d s method uri body out => (s, (empty_answer d out, None));
  getCustomFieldsSchema := fun s controller =>
    (s, (Go.make_map declared, None))
|}.

(* an update of a field the schema does not declare, and one of a field
   it declares *)
Definition unknown_update : Go.gomap Go.iface :=
  Go.make_map {[ "unknown_key" := Go.i_string "x" ]}.

Definition asset_update : Go.gomap Go.iface :=
  Go.make_map {[ "asset_tag" := Go.i_string "A123" ]}.

(* no call made yet *)
Definition start (c : Client) (s : @Server c) : @World c :=
  {| server := s; calls := [] |}.

(* a wire subnet 10.10.1.0/24 *)
Definition subnet24 : subnets.SubnetDTO.t :=
  let z := subnets.SubnetDTO.zero in
  subnets.SubnetDTO.mk
    (phpipam.JSONIntString_of 7) "10.10.1.0" (phpipam.JSONIntString_of 24)
    (subnets.SubnetDTO.Description z) (phpipam.JSONIntString_of 1)
    (subnets.SubnetDTO.LinkedSubnet z) (subnets.SubnetDTO.VLANID z)
    (subnets.SubnetDTO.VRFID z) (subnets.SubnetDTO.MasterSubnetID z)
    (subnets.SubnetDTO.NameserverID z) (subnets.SubnetDTO.Nameservers z)
    (subnets.SubnetDTO.ShowName z) (subnets.SubnetDTO.Permissions z)
    (subnets.SubnetDTO.DNSRecursive z) (subnets.SubnetDTO.DNSRecords z)
    (subnets.SubnetDTO.AllowRequests z) (subnets.SubnetDTO.ScanAgent z)
    (subnets.SubnetDTO.PingSubnet z) (subnets.SubnetDTO.DiscoverSubnet z)
    (subnets.SubnetDTO.IsFolder z) (subnets.SubnetDTO.IsPool z)
    (subnets.SubnetDTO.IsFull z) (subnets.SubnetDTO.Threshold z)
    (subnets.SubnetDTO.Location z) (subnets.SubnetDTO.EditDate z)
    (subnets.SubnetDTO.Gateway z) (subnets.SubnetDTO.GatewayID z)
    (subnets.SubnetDTO.CustomFields z) (subnets.SubnetDTO.ResolveDNS z).

End examples.

(** ** What the statements below say about a method

    The reading methods differ in the type they hand to the dispatcher and
    in what they do with its content afterwards. Each predicate fixes one
    such behaviour for a method [op] that requests [uri]; the answer of the
    client is named by an equation on [sendRequest], which is a function,
    so an answer always exists. *)

Module contracts.
Import client resources.

(* the update map with the keys id and name set, as a request body *)
Definition patch_body (id : Go.int) (name : string)
    (in_ : Go.gomap Go.iface) : Body :=
  Params (Go.make_map (<["name" := Go.i_string name]>
                         (<["id" := Go.i_int id]> (Go.entries in_)))).

Section WithClient.
Context `{Client}.

(* the world after the client has answered one more call *)
Definition after_call (w : World) (s : Server) (c : Call) : World :=
  {| server := s; calls := calls w ++ [c] |}.

(* [op] makes one GET of [uri] into a slice of wire records of kind [k],
   and returns the wire records converted by FromDTO one by one, in order,
   together with the error of the call; what it returns is the nil slice
   exactly when there was no record to convert. *)
Definition reads_sequence (k : Kind)
    (op : M (Go.slice (record Domain k) * Go.error)) (uri : string) : Prop :=
  forall (w : World) (s : Server) (dtos : Go.slice (record Wire k))
         (err : Go.error),
    sendRequest (PtrSlice Wire k) (server w) "GET" uri EmptyStruct Go.nil_slice
    = (s, (dtos, err)) ->
    exists out : Go.slice (record Domain k),
      op w = ((out, err),
              after_call w s
                (CallSendRequest "GET" uri EmptyStruct (PtrSlice Wire k))) /\
      Go.elems out = decoded k <$> Go.elems dtos /\
      (Go.is_nil out = true <-> Go.elems dtos = []).

(* [op] makes one GET of [uri] into a single wire record of kind [k],
   starting from its zero value, and returns that record converted by
   FromDTO together with the error of the call. *)
Definition reads_record (k : Kind)
    (op : M (record Domain k * Go.error)) (uri : string) : Prop :=
  forall (w : World) (s : Server) (dto : record Wire k) (err : Go.error),
    sendRequest (PtrRecord Wire k) (server w) "GET" uri EmptyStruct
                (zero Wire k)
    = (s, (dto, err)) ->
    op w = ((decoded k dto, err),
            after_call w s
              (CallSendRequest "GET" uri EmptyStruct (PtrRecord Wire k))).

(* [op] makes one GET of [uri] into a slice of domain records of kind [k]
   and returns the content of that slice as the client left it. *)
Definition reads_domain_sequence (k : Kind)
    (op : M (Go.slice (record Domain k) * Go.error)) (uri : string) : Prop :=
  forall (w : World) (s : Server) (out : Go.slice (record Domain k))
         (err : Go.error),
    sendRequest (PtrSlice Domain k) (server w) "GET" uri EmptyStruct
                Go.nil_slice
    = (s, (out, err)) ->
    op w = ((out, err),
            after_call w s
              (CallSendRequest "GET" uri EmptyStruct (PtrSlice Domain k))).

(* When the client answers the GET of [uri] with an array of no elements
   and no error, [op] returns no error and a sequence of length zero,
   which is the nil slice when [nil] is true. *)
Definition empty_array_gives (l : Layer) (k : Kind)
    (op : M (Go.slice (record Domain k) * Go.error)) (uri : string)
    (nil : bool) : Prop :=
  forall (w : World) (s : Server) (answer : Go.slice (record l k)),
    sendRequest (PtrSlice l k) (server w) "GET" uri EmptyStruct Go.nil_slice
    = (s, (answer, None)) ->
    Go.len answer = 0 ->
    exists out : Go.slice (record Domain k),
      op w = ((out, None),
              after_call w s
                (CallSendRequest "GET" uri EmptyStruct (PtrSlice l k))) /\
      Go.len out = 0 /\
      (nil = true -> out = Go.nil_slice).

(* When the client answers the GET of [uri] with an error and leaves the
   zero wire record it was handed as it is, [op] returns that error
   together with FromDTO of the zero wire record, which is the zero
   domain record. *)
Definition error_gives_zero (k : Kind)
    (op : M (record Domain k * Go.error)) (uri : string) : Prop :=
  forall (w : World) (s : Server) (e : string),
    sendRequest (PtrRecord Wire k) (server w) "GET" uri EmptyStruct
                (zero Wire k)
    = (s, (zero Wire k, Some e)) ->
    op w = ((FromDTO k (zero Domain k) (zero Wire k), Some e),
            after_call w s
              (CallSendRequest "GET" uri EmptyStruct (PtrRecord Wire k))) /\
    FromDTO k (zero Domain k) (zero Wire k) = zero Domain k.

End WithClient.

End contracts.

(** ** Package client, with all four of its methods

    The methods that create, update and delete send bodies that the
    reading methods never send, and the custom field methods of the
    addresses, subnets and vlans controllers use [GetCustomFields] and
    [UpdateCustomFields]. This module is the dispatcher of [client] with
    these added; kinds, destinations and their contents are the ones
    above. *)

Module client_all.

(* The request bodies of the methods embedded in [controllers_rest]:
   &struct{}{}, the wire record that ToDTO returns (by pointer for
   sections, subnets and VLANs, by value for addresses and layer-2
   domains), and the pointer to the anonymous struct of DeleteAddress
   with its one field RemoveDNS. *)
Inductive Body : Type :=
| EmptyStruct
| WireRecord (k : client.Kind) (dto : client.record client.Wire k)
| RemoveDNSStruct (RemoveDNS : phpipam.BoolIntString).

(* a call made on the client *)
Inductive Call : Type :=
| CallSendRequest (method uri : string) (body : Body) (out : client.Dest)
| CallGetCustomFieldsSchema (controller : string)
| CallGetCustomFields (id : Go.int) (controller : string)
| CallUpdateCustomFields (id : Go.int) (in_ : Go.gomap Go.iface)
    (controller : string).

(** Modelled from the spec: package client is not among the sources.
    External interfaces: "sendRequest(method, path, requestBody, out
    *destination) -> error", "getCustomFieldsSchema(resourceFamily) ->
    mapping<fieldName, descriptor>, error", "getCustomFields(id,
    resourceFamily) -> mapping<fieldName, value>, error" and
    "updateCustomFields(id, mapping, resourceFamily) -> message, error".
    A client is any four functions of these shapes over a remote state. *)
Class Client : Type := {
  Server : Type;
  sendRequest : forall d : client.Dest,
      Server -> string -> string -> Body -> client.content d ->
      Server * (client.content d * Go.error);
  getCustomFieldsSchema :
      Server -> string ->
      Server * (Go.gomap phpipam.CustomField * Go.error);
  getCustomFields :
      Server -> Go.int -> string ->
      Server * (Go.gomap Go.iface * Go.error);
  updateCustomFields :
      Server -> Go.int -> Go.gomap Go.iface -> string ->
      Server * (string * Go.error)
}.

(* the remote state and the calls made so far, oldest first *)
Record World `{Client} : Type := {
  server : Server;
  calls : list Call
}.

(* a computation that may call the client *)
Definition M `{Client} (A : Type) : Type := World -> A * World.

#[export] Instance M_ret `{Client} : MRet M := fun A a w => (a, w).

#[export] Instance M_bind `{Client} : MBind M :=
  fun A B f m w => let '(a, w') := m w in f a w'.

(* the world after the client has answered one more call *)
Definition after_call `{Client} (w : World) (s : Server) (c : Call)
    : World :=
  {| server := s; calls := calls w ++ [c] |}.

(* c.SendRequest(method, uri, in, &out) *)
Definition SendRequest `{Client} {d : client.Dest} (method uri : string)
    (body : Body) (out : client.content d)
    : M (client.content d * Go.error) :=
  fun w =>
    let '(s, r) := sendRequest d (server w) method uri body out in
    (r, after_call w s (CallSendRequest method uri body d)).

(* c.Client.GetCustomFieldsSchema(controller) *)
Definition GetCustomFieldsSchema `{Client} (controller : string)
    : M (Go.gomap phpipam.CustomField * Go.error) :=
  fun w =>
    let '(s, r) := getCustomFieldsSchema (server w) controller in
    (r, after_call w s (CallGetCustomFieldsSchema controller)).

(* c.Client.GetCustomFields(id, controller) *)
Definition GetCustomFields `{Client} (id : Go.int) (controller : string)
    : M (Go.gomap Go.iface * Go.error) :=
  fun w =>
    let '(s, r) := getCustomFields (server w) id controller in
    (r, after_call w s (CallGetCustomFields id controller)).

(* c.Client.UpdateCustomFields(id, in, controller) *)
Definition UpdateCustomFields `{Client} (id : Go.int)
    (in_ : Go.gomap Go.iface) (controller : string)
    : M (string * Go.error) :=
  fun w =>
    let '(s, r) := updateCustomFields (server w) id in_ controller in
    (r, after_call w s (CallUpdateCustomFields id in_ controller)).

(* the calls made between two worlds *)
Definition issued `{Client} (w w' : World) : list Call :=
  drop (length (calls w)) (calls w').

End client_all.

(** ** The remaining controller methods

    The methods of the five [Controller] types that are not in
    [controllers]: those that create, update and delete, the two
    first-free lookups of subnets, and the custom field methods of
    addresses, subnets and vlans. *)

Module controllers_rest.
Import client_all.
Import sections addresses subnets vlans l2domains.

Section WithClient.
Context `{Client}.

(** *** Package sections *)

(* CreateSection creates a section by sending a POST request. *)
Definition CreateSection (in_ : Section.t) : M (string * Go.error) :=
  let message := "" in
  '(message, err) ← SendRequest (d := client.PtrString)
                      "POST" "/sections/"
                      (WireRecord client.KSection (Section.ToDTO in_))
                      message;
  mret (message, err).

(* UpdateSection updates a section by sending a PATCH request. *)
Definition UpdateSection (in_ : Section.t) : M Go.error :=
  '(_, err) ← SendRequest (d := client.PtrEmptyStruct)
                "PATCH" "/sections/"
                (WireRecord client.KSection (Section.ToDTO in_)) tt;
  mret err.

(** *** Package addresses *)

(* CreateAddress creates an address by sending a POST request. *)
Definition CreateAddress (in_ : Address.t) : M (string * Go.error) :=
  let message := "" in
  '(message, err) ← SendRequest (d := client.PtrString)
                      "POST" "/addresses/"
                      (WireRecord client.KAddress (Address.ToDTO in_))
                      message;
  mret (message, err).

(* CreateFirstFreeAddress creates a first free in subnet address by sending
   a POST request. *)
Definition CreateFirstFreeAddress (id : Go.int) (in_ : Address.t)
    : M (string * Go.error) :=
  let out := "" in
  '(out, err) ← SendRequest (d := client.PtrString)
                  "POST" ("/addresses/first_free/" +:+ Go.Itoa id +:+ "/")
                  (WireRecord client.KAddress (Address.ToDTO in_))
                  out;
  mret (out, err).

(* GetAddressCustomFieldsSchema GETs the custom fields for the addresses
   controller via client.GetCustomFieldsSchema. *)
Definition GetAddressCustomFieldsSchema
    : M (Go.gomap phpipam.CustomField * Go.error) :=
  GetCustomFieldsSchema "addresses".

(* GetAddressCustomFields GETs the custom fields for a subnet via
   client.GetCustomFields. *)
Definition GetAddressCustomFields (id : Go.int)
    : M (Go.gomap Go.iface * Go.error) :=
  GetCustomFields id "addresses".

(* UpdateAddress updates an address by sending a PATCH request. *)
Definition UpdateAddress (in_ : Address.t) : M (string * Go.error) :=
  let message := "" in
  '(message, err) ← SendRequest (d := client.PtrString)
                      "PATCH" "/addresses/"
                      (WireRecord client.KAddress (Address.ToDTO in_))
                      message;
  mret (message, err).

(* UpdateAddressCustomFields PATCHes the subnet's custom fields via
   client.UpdateCustomFields. *)
Definition UpdateAddressCustomFields (id : Go.int)
    (in_ : Go.gomap Go.iface) : M (string * Go.error) :=
  UpdateCustomFields id in_ "addresses".

(* DeleteAddress deletes an address by ID. RemoveDNS can be set to true if
   you want to have any related DNS records deleted as well. *)
Definition DeleteAddress (id : Go.int) (RemoveDNS : phpipam.BoolIntString)
    : M (string * Go.error) :=
  let message := "" in
  let in_ := RemoveDNSStruct RemoveDNS in
  '(message, err) ← SendRequest (d := client.PtrString)
                      "DELETE" ("/addresses/" +:+ Go.Itoa id +:+ "/")
                      in_ message;
  mret (message, err).

(** *** Package vlans *)

(* CreateVLAN creates a VLAN by sending a POST request. *)
Definition CreateVLAN (in_ : VLAN.t) : M (string * Go.error) :=
  let message := "" in
  '(message, err) ← SendRequest (d := client.PtrString)
                      "POST" "/vlans/"
                      (WireRecord client.KVLAN (VLAN.ToDTO in_))
                      message;
  mret (message, err).

(* GetVLANCustomFields GETs the custom fields for a subnet via
   client.GetCustomFields. *)
Definition GetVLANCustomFields (id : Go.int)
    : M (Go.gomap Go.iface * Go.error) :=
  GetCustomFields id "vlans".

(* UpdateVLAN updates a VLAN by sending a PATCH request. *)
Definition UpdateVLAN (in_ : VLAN.t) : M (string * Go.error) :=
  let message := "" in
  '(message, err) ← SendRequest (d := client.PtrString)
                      "PATCH" "/vlans/"
                      (WireRecord client.KVLAN (VLAN.ToDTO in_))
                      message;
  mret (message, err).

(* DeleteVLAN deletes a VLAN by its ID. *)
Definition DeleteVLAN (id : Go.int) : M (string * Go.error) :=
  let message := "" in
  '(message, err) ← SendRequest (d := client.PtrString)
                      "DELETE" ("/vlans/" +:+ Go.Itoa id +:+ "/")
                      EmptyStruct message;
  mret (message, err).

(** *** Package l2domains *)

(* CreateL2Domain creates a l2domain by sending a POST request. *)
Definition CreateL2Domain (in_ : L2Domain.t) : M (string * Go.error) :=
  let message := "" in
  '(message, err) ← SendRequest (d := client.PtrString)
                      "POST" "/l2domains/"
                      (WireRecord client.KL2Domain (L2Domain.ToDTO in_))
                      message;
  mret (message, err).

(* UpdateL2Domain updates a l2domain by sending a PATCH request. *)
Definition UpdateL2Domain (in_ : L2Domain.t) : M Go.error :=
  '(_, err) ← SendRequest (d := client.PtrEmptyStruct)
                "PATCH" "/l2domains/"
                (WireRecord client.KL2Domain (L2Domain.ToDTO in_)) tt;
  mret err.

(* DeleteL2Domain deletes a l2domain by sending a DELETE request. *)
Definition DeleteL2Domain (id : Go.int) : M Go.error :=
  '(_, err) ← SendRequest (d := client.PtrEmptyStruct)
                "DELETE" ("/l2domains/" +:+ Go.Itoa id +:+ "/")
                EmptyStruct tt;
  mret err.

(** *** Package subnets *)

(* CreateSubnet creates a subnet by sending a POST request. *)
Definition CreateSubnet (in_ : Subnet.t) : M (string * Go.error) :=
  let message := "" in
  '(message, err) ← SendRequest (d := client.PtrString)
                      "POST" "/subnets/"
                      (WireRecord client.KSubnet (Subnet.ToDTO in_))
                      message;
  mret (message, err).

(* CreateFirstFreeSubnet creates a first free child subnet inside subnet
   with specified mask by sending a POST request. *)
Definition CreateFirstFreeSubnet (id mask : Go.int) (in_ : Subnet.t)
    : M (string * Go.error) :=
  let message := "" in
  '(message, err) ← SendRequest (d := client.PtrString)
                      "POST" ("/subnets/" +:+ Go.Itoa id +:+ "/first_subnet/"
                              +:+ Go.Itoa mask +:+ "/")
                      (WireRecord client.KSubnet (Subnet.ToDTO in_))
                      message;
  mret (message, err).

(* GetFirstFreeSubnet GETs the first free child subnet inside subnet with
   specified mask. *)
Definition GetFirstFreeSubnet (id mask : Go.int) : M (string * Go.error) :=
  let message := "" in
  '(message, err) ← SendRequest (d := client.PtrString)
                      "GET" ("/subnets/" +:+ Go.Itoa id +:+ "/first_subnet/"
                             +:+ Go.Itoa mask +:+ "/")
                      EmptyStruct message;
  mret (message, err).

(* GetFirstFreeAddress GETs the first free IP address in a subnet and
   returns it as a string. *)
Definition GetFirstFreeAddress (id : Go.int) : M (string * Go.error) :=
  let out := "" in
  '(out, err) ← SendRequest (d := client.PtrString)
                  "GET" ("/subnets/" +:+ Go.Itoa id +:+ "/first_free/")
                  EmptyStruct out;
  mret (out, err).

(* GetSubnetCustomFieldsSchema GETs the custom fields for the subnets
   controller via client.GetCustomFieldsSchema. *)
Definition GetSubnetCustomFieldsSchema
    : M (Go.gomap phpipam.CustomField * Go.error) :=
  GetCustomFieldsSchema "subnets".

(* GetSubnetCustomFields GETs the custom fields for a subnet via
   client.GetCustomFields. *)
Definition GetSubnetCustomFields (id : Go.int)
    : M (Go.gomap Go.iface * Go.error) :=
  GetCustomFields id "subnets".

(* UpdateSubnet updates a subnet by sending a PATCH request. *)
Definition UpdateSubnet (in_ : Subnet.t) : M (string * Go.error) :=
  let message := "" in
  '(message, err) ← SendRequest (d := client.PtrString)
                      "PATCH" "/subnets/"
                      (WireRecord client.KSubnet (Subnet.ToDTO in_))
                      message;
  mret (message, err).

(* UpdateSubnetCustomFields PATCHes the subnet's custom fields via
   client.UpdateCustomFields. *)
Definition UpdateSubnetCustomFields (id : Go.int)
    (in_ : Go.gomap Go.iface) : M (string * Go.error) :=
  UpdateCustomFields id in_ "subnets".

(* DeleteSubnet deletes a subnet by its ID. *)
Definition DeleteSubnet (id : Go.int) : M (string * Go.error) :=
  let message := "" in
  '(message, err) ← SendRequest (d := client.PtrString)
                      "DELETE" ("/subnets/" +:+ Go.Itoa id +:+ "/")
                      EmptyStruct message;
  mret (message, err).

End WithClient.

End controllers_rest.

(** ** What the further statements say about a method *)

Module contracts_rest.

(* [op] makes one call on the client, and that call is a GET request or
   the fetch of a schema: not a POST, a PATCH or a DELETE. *)
Definition reads_only `{client.Client} {A : Type} (op : client.M A)
    : Prop :=
  forall w : client.World,
    exists c : client.Call,
      client.issued w (op w).2 = [c] /\ client.mutating c = false.

Section WithClient.
Context `{client_all.Client}.
Import client_all.

(* [op] makes one call of SendRequest, with the given method, path and
   body and a destination of type [d] that holds [out] before the call;
   it returns [result] of what the call left there and of its error. *)
Definition one_request (d : client.Dest) {A : Type} (op : M A)
    (result : client.content d * Go.error -> A) (method uri : string)
    (body : Body) (out : client.content d) : Prop :=
  forall w : World,
    exists (s : Server) (out' : client.content d) (err : Go.error),
      sendRequest d (server w) method uri body out = (s, (out', err)) /\
      op w = (result (out', err),
              after_call w s (CallSendRequest method uri body d)) /\
      issued w (op w).2 = [CallSendRequest method uri body d].

(* [op] sends the record [in_] of kind [k]: it makes one request whose body
   is the wire record ToDTO builds from [in_], a record that FromDTO maps
   back to [in_], and returns the message and the error of the request. *)
Definition sends_record (k : client.Kind) (op : M (string * Go.error))
    (method uri : string) (in_ : client.record client.Domain k) : Prop :=
  exists dto : client.record client.Wire k,
    dto = resources.ToDTO k in_ /\
    resources.decoded k dto = in_ /\
    one_request client.PtrString op (fun r => r) method uri
      (WireRecord k dto) "".

(* the same for a method that decodes the answer into an empty struct and
   returns the error alone *)
Definition sends_record_quietly (k : client.Kind) (op : M Go.error)
    (method uri : string) (in_ : client.record client.Domain k) : Prop :=
  exists dto : client.record client.Wire k,
    dto = resources.ToDTO k in_ /\
    resources.decoded k dto = in_ /\
    one_request client.PtrEmptyStruct op snd method uri
      (WireRecord k dto) tt.

(* [op] hands its arguments to one method of the client and returns what
   that method answers: [c] is the only call it makes, and the answer is
   passed on as it is. *)
Definition delegates {A : Type} (op : M A)
    (answer : Server -> Server * A) (c : Call) : Prop :=
  forall w : World,
    op w = ((answer (server w)).2, after_call w (answer (server w)).1 c) /\
    issued w (op w).2 = [c].

End WithClient.

End contracts_rest.

(** ** A concrete client for the writing methods *)

Module examples_rest.

(* the answer of the confirming server: a message for a string
   destination, nothing for the others *)
Definition confirmation (d : client.Dest)
    : client.content d -> client.content d :=
  match d with
  | client.PtrString => fun _ => "Success"
  | _ => fun out => out
  end.

(* A server that accepts every request and holds no custom fields. *)
Definition confirming : client_all.Client := {|
  client_all.Server := unit;
  client_all.sendRequest := fun d s method uri body out =>
    (s, (confirmation d out, None));
  client_all.getCustomFieldsSchema := fun s controller =>
    (s, (Go.make_map examples.declared, None));
  client_all.getCustomFields := fun s id controller =>
    (s, (Go.nil_map, None));
  client_all.updateCustomFields := fun s id in_ controller =>
    (s, ("Success", None))
|}.

(* no call made yet *)
Definition start : @client_all.World confirming :=
  @client_all.Build_World confirming tt [].

(* a VLAN as a caller fills it in before creating it *)
Definition vlan42 : vlans.VLAN.t :=
  vlans.VLAN.mk 0 3 "mgmt" 42 "management" "" Go.nil_map.

(* an update of two fields, one declared by the schema of [empty_server]
   and one not *)
Definition mixed_update : Go.gomap Go.iface :=
  Go.make_map {[ "asset_tag" := Go.i_string "A123";
                 "unknown_key" := Go.i_string "x" ]}.

(* an update that tries to set the keys the method sets itself *)
Definition overriding_update : Go.gomap Go.iface :=
  Go.make_map {[ "id" := Go.i_int 99; "notes" := Go.i_string "n" ]}.

(* a client whose schema declares the keys of [overriding_update] *)
Definition lenient : client.Client := {|
  client.Server := unit;
  client.sendRequest := fun d s method uri body out =>
    (s, (examples.empty_answer d out, None));
  client.getCustomFieldsSchema := fun s controller =>
    (s, (Go.make_map
           {[ "id" := {| phpipam.descriptor := "int" |};
              "notes" := {| phpipam.descriptor := "text" |} ]}, None))
|}.

(* two sections as the server sends them *)
Definition section_lab : sections.SectionDTO.t :=
  sections.SectionDTO.mk
    (phpipam.JSONIntString_of 1) "lab" "" (phpipam.JSONIntString_of 0) ""
    (phpipam.BoolIntString_of true) "" (phpipam.JSONIntString_of 0) ""
    (phpipam.BoolIntString_of false) (phpipam.BoolIntString_of false)
    (phpipam.BoolIntString_of false) (phpipam.JSONIntString_of 0).

Definition section_prod : sections.SectionDTO.t :=
  sections.SectionDTO.mk
    (phpipam.JSONIntString_of 2) "prod" "" (phpipam.JSONIntString_of 1) ""
    (phpipam.BoolIntString_of true) "" (phpipam.JSONIntString_of 0) ""
    (phpipam.BoolIntString_of false) (phpipam.BoolIntString_of false)
    (phpipam.BoolIntString_of false) (phpipam.JSONIntString_of 0).

(* the answer of the truncating server: two sections for a sequence of
   wire sections, nothing for the other destinations *)
Definition truncated_answer (d : client.Dest)
    : client.content d -> client.content d :=
  match d with
  | client.PtrSlice client.Wire client.KSection =>
      fun _ => Go.make_slice [section_lab; section_prod]
  | _ => fun out => out
  end.

(* A server whose answers break off: the dispatcher has decoded two
   sections when it finds the error. *)
Definition truncating : client.Client := {|
  client.Server := unit;
  client.sendRequest := fun d s method uri body out =>
    (s, (truncated_answer d out, Some "unexpected end of JSON input"));
  client.getCustomFieldsSchema := fun s controller =>
    (s, (Go.nil_map, Some "unexpected end of JSON input"))
|}.

(* the answer of the server that fails late: a section for a single wire
   section, nothing for the other destinations *)
Definition late_answer (d : client.Dest)
    : client.content d -> client.content d :=
  match d with
  | client.PtrRecord client.Wire client.KSection => fun _ => section_lab
  | _ => fun out => out
  end.

(* A server whose answer to a single record breaks off after the record:
   the dispatcher has filled the destination when it finds the error. *)
Definition failing_late : client.Client := {|
  client.Server := unit;
  client.sendRequest := fun d s method uri body out =>
    (s, (late_answer d out, Some "unexpected end of JSON input"));
  client.getCustomFieldsSchema := fun s controller =>
    (s, (Go.nil_map, Some "unexpected end of JSON input"))
|}.

(* every entry once, in the order opposite to [examples.listing_order] *)
Definition reverse_order : Go.RangeOrder := {|
  Go.range := fun V m => reverse (map_to_list m);
  Go.range_visits_all := fun V m => reverse_Permutation (map_to_list m)
|}.

End examples_rest.

(** * Properties *)

Import client resources contracts controllers.

(** ** The mapping between wire and domain records *)

Lemma int_of_JSONIntString_of (i : Go.int) :
  phpipam.int_of (phpipam.JSONIntString_of i) = i.
Proof. reflexivity. Qed.

Lemma JSONIntString_of_int_of (j : phpipam.JSONIntString) :
  phpipam.JSONIntString_of (phpipam.int_of j) = j.
Proof. by destruct j. Qed.

(* splits a membership in a literal list into its cases *)
Ltac field_cases H :=
  repeat (apply elem_of_cons in H as [H | H]);
  [ .. | by apply elem_of_nil in H ].

(* finds an element in a literal list *)
Ltac field_found :=
  repeat first [ apply list_elem_of_here | apply list_elem_of_further ].


(** C3, as stated, fails: the wire field [Mask] of a subnet has type
    [JSONIntString], and the domain record holds it under the same type
    instead of as a plain integer. *)
Lemma Subnet_Mask_keeps_JSONIntString :
  ~ (forall (k : Kind) (r : record Domain k) (w : record Wire k)
            (name : string) (j : phpipam.JSONIntString),
        (name, reflect.VJSONIntString j) ∈ fields Wire k w ->
        (name, reflect.VInt (phpipam.int_of j))
          ∈ fields Domain k (FromDTO k r w)).
Proof.
  intros claim.
  specialize (claim KSubnet (zero Domain KSubnet) examples.subnet24
                    "Mask" (phpipam.JSONIntString_of 24)).
  assert (Hwire : ("Mask", reflect.VJSONIntString (phpipam.JSONIntString_of 24))
                    ∈ fields Wire KSubnet examples.subnet24)
    by (cbn; field_found).
  apply claim in Hwire. cbn in Hwire.
  field_cases Hwire; discriminate Hwire.
Qed.

(** C3, amended. For each resource kind, a field of the wire record typed
    [JSONIntString] appears in the record built by [FromDTO] under the same
    name as a plain integer holding the unwrapped value, except the field
    [Mask] of a subnet, which is copied as it is and stays a
    [JSONIntString]; no other field of a domain record has that type. *)
Theorem JSONIntString_unwrapped_except_Subnet_Mask (k : Kind)
    (r : record Domain k) (w : record Wire k) (name : string)
    (j : phpipam.JSONIntString) :
  (name, reflect.VJSONIntString j) ∈ fields Wire k w ->
  ((k, name) <> (KSubnet, "Mask") ->
   (name, reflect.VInt (phpipam.int_of j)) ∈ fields Domain k (FromDTO k r w)) /\
  ((k, name) = (KSubnet, "Mask") ->
   (name, reflect.VJSONIntString j) ∈ fields Domain k (FromDTO k r w)) /\
  (forall (name' : string) (j' : phpipam.JSONIntString),
      (name', reflect.VJSONIntString j') ∈ fields Domain k (FromDTO k r w) ->
      (k, name') = (KSubnet, "Mask")).
Proof.
  intros Hwire. split; [ | split ].
  - intros Hother. destruct k; destruct w; cbn in Hwire |- *.
    all: field_cases Hwire; simplify_eq; cbn; field_found.
  - intros [= -> ->]. destruct w; cbn in Hwire |- *.
    field_cases Hwire; simplify_eq. cbn. field_found.
  - intros name' j' Hdom. destruct k; destruct w; cbn in Hdom.
    all: field_cases Hdom; by simplify_eq.
Qed.

Lemma JSONIntString_unwrapped_except_Subnet_Mask_witness :
  ("ID", reflect.VInt 7)
    ∈ fields Domain KSubnet (decoded KSubnet examples.subnet24) /\
  ("Mask", reflect.VJSONIntString (phpipam.JSONIntString_of 24))
    ∈ fields Domain KSubnet (decoded KSubnet examples.subnet24).
Proof.
  split.
  - refine (proj1 (JSONIntString_unwrapped_except_Subnet_Mask
             KSubnet (zero Domain KSubnet) examples.subnet24
             "ID" (phpipam.JSONIntString_of 7) _) _).
    + cbn. field_found.
    + discriminate.
  - refine (proj1 (proj2 (JSONIntString_unwrapped_except_Subnet_Mask
             KSubnet (zero Domain KSubnet) examples.subnet24
             "Mask" (phpipam.JSONIntString_of 24) _)) _).
    + cbn. field_found.
    + reflexivity.
Defined.

(** ** The JSON form of a Normalized Integer *)

Lemma Atoi_Itoa (i : Go.int) : phpipam.Atoi (Go.Itoa i) = Some i.
Proof.
  unfold phpipam.Atoi, Go.Itoa.
  rewrite NilZero.isi.
  - cbn. by rewrite DecimalZ.of_to.
  - destruct i; cbn; try discriminate.
    intros [= Hnil]. by apply DecimalPos.Unsigned.to_uint_nonnil in Hnil.
  - destruct i; cbn; try discriminate.
    intros [= Hnil]. by apply DecimalPos.Unsigned.to_uint_nonnil in Hnil.
Qed.

Lemma decode_TString_Itoa (i : Go.int) :
  phpipam.decode (phpipam.TString (Go.Itoa i))
  = inr (phpipam.JSONIntString_of i).
Proof.
  pose proof (Atoi_Itoa i) as Hparse. unfold phpipam.decode.
  destruct (Go.Itoa i) as [ | a s ]; [ discriminate Hparse | ].
  by rewrite Hparse.
Qed.

Lemma decode_TNumber_Itoa (i : Go.int) :
  phpipam.decode (phpipam.TNumber (Go.Itoa i))
  = inr (phpipam.JSONIntString_of i).
Proof. unfold phpipam.decode. by rewrite Atoi_Itoa. Qed.

Example decode_forms :
  phpipam.decode (phpipam.TString "24") = inr (phpipam.JSONIntString_of 24) /\
  phpipam.decode (phpipam.TNumber "24") = inr (phpipam.JSONIntString_of 24) /\
  phpipam.decode (phpipam.TString "") = inr (phpipam.JSONIntString_of 0) /\
  phpipam.decode phpipam.TNull = inr (phpipam.JSONIntString_of 0) /\
  phpipam.decode (phpipam.TString "/24")
  = inl (phpipam.MalformedScalar (phpipam.TString "/24")) /\
  phpipam.encode true (phpipam.JSONIntString_of 0) = phpipam.TAbsent /\
  phpipam.encode false (phpipam.JSONIntString_of 0) = phpipam.TString "0".
Proof. repeat split; reflexivity. Qed.

(** C9. For every integer [n >= 0], decoding the encoding of [n] gives [n]
    again, whether or not the field is optional (an optional zero is left
    out, and an absent token decodes to zero), and the quoted decimal
    string and the bare JSON number of [n] decode to the same value [n]. *)
Theorem JSONIntString_decode_encode (n : Go.int) (optional : bool) :
  0 <= n ->
  phpipam.decode (phpipam.encode optional (phpipam.JSONIntString_of n))
  = inr (phpipam.JSONIntString_of n) /\
  phpipam.decode (phpipam.TString (Go.Itoa n))
  = phpipam.decode (phpipam.TNumber (Go.Itoa n)) /\
  phpipam.decode (phpipam.TNumber (Go.Itoa n))
  = inr (phpipam.JSONIntString_of n).
Proof.
  intros _. split; [ | split ].
  - unfold phpipam.encode. cbn [phpipam.int_of].
    destruct optional; cbn [andb].
    + destruct (Z.eqb_spec n 0) as [-> | _]; [ reflexivity | ].
      apply decode_TString_Itoa.
    + apply decode_TString_Itoa.
  - by rewrite decode_TString_Itoa, decode_TNumber_Itoa.
  - apply decode_TNumber_Itoa.
Qed.

Lemma JSONIntString_decode_encode_witness :
  phpipam.decode (phpipam.encode true (phpipam.JSONIntString_of 24))
  = inr (phpipam.JSONIntString_of 24) /\
  phpipam.decode (phpipam.TString (Go.Itoa 24))
  = phpipam.decode (phpipam.TNumber (Go.Itoa 24)) /\
  phpipam.decode (phpipam.TNumber (Go.Itoa 24))
  = inr (phpipam.JSONIntString_of 24).
Proof. apply (JSONIntString_decode_encode 24 true). lia. Defined.

(** ** The reading methods *)

Lemma convert_loop_from {A B : Type} (f : B -> A) (l : list B)
    (out : Go.slice A) :
  foldl (fun out dto => Go.append out (f dto)) out l
  = match l with
    | [] => out
    | _ :: _ => Go.make_slice (Go.elems out ++ (f <$> l))
    end.
Proof.
  revert out. induction l as [ | dto l IH ]; intros out; [ reflexivity | ].
  cbn [foldl]. rewrite IH. destruct l as [ | dto' l ].
  - reflexivity.
  - unfold Go.append. cbn [Go.elems]. by rewrite <- app_assoc.
Qed.

Lemma convert_loop {A B : Type} (f : B -> A) (l : list B) :
  Go.elems (foldl (fun out dto => Go.append out (f dto)) Go.nil_slice l)
  = f <$> l /\
  (Go.is_nil (foldl (fun out dto => Go.append out (f dto)) Go.nil_slice l)
   = true <-> l = []).
Proof.
  rewrite convert_loop_from. destruct l as [ | dto l ]; cbn.
  - done.
  - split; [ done | ]. split; discriminate.
Qed.

Section Reading.
Context `{Client}.

(* runs a method up to the answer [Hsend] of its call *)
Ltac run_method Hsend :=
  unfold mbind, M_bind, SendRequest; cbn [record content zero] in Hsend |- *;
  rewrite Hsend; cbn beta iota.

Ltac sequence_method op :=
  intros w s dtos err Hsend; unfold op; run_method Hsend;
  eexists; split; [ reflexivity | apply convert_loop ].

Ltac record_method op :=
  intros w s dto err Hsend; unfold op; run_method Hsend; reflexivity.

Lemma ListSections_reads :
  reads_sequence KSection ListSections "/sections/".
Proof. sequence_method @ListSections. Qed.

Lemma GetSubnetsInSection_reads (id : Go.int) :
  reads_sequence KSubnet (GetSubnetsInSection id)
    ("/sections/" +:+ Go.Itoa id +:+ "/subnets/").
Proof. sequence_method @GetSubnetsInSection. Qed.

Lemma GetAddressesByIP_reads (ipaddr : string) :
  reads_sequence KAddress (GetAddressesByIP ipaddr)
    ("/addresses/search/" +:+ ipaddr +:+ "/").
Proof. sequence_method @GetAddressesByIP. Qed.

Lemma GetVLANsByNumber_reads (id : Go.int) :
  reads_sequence KVLAN (GetVLANsByNumber id)
    ("/vlans/search/" +:+ Go.Itoa id +:+ "/").
Proof. sequence_method @GetVLANsByNumber. Qed.

Lemma GetVLANsByNumberAndDomainID_reads (vlan_id domain_id : Go.int) :
  reads_sequence KVLAN (GetVLANsByNumberAndDomainID vlan_id domain_id)
    ("/vlans/search/" +:+ Go.Itoa vlan_id
     +:+ "/?filter_by=domainId&filter_value=" +:+ Go.Itoa domain_id).
Proof. sequence_method @GetVLANsByNumberAndDomainID. Qed.

Lemma GetL2DomainByName_reads (name : string) :
  reads_sequence KL2Domain (GetL2DomainByName name)
    ("/l2domains/?filter_by=name&filter_value=" +:+ name).
Proof. sequence_method @GetL2DomainByName. Qed.

Lemma GetVlansInl2Domain_reads (id : Go.int) :
  reads_sequence KVLAN (GetVlansInl2Domain id)
    ("/l2domains/" +:+ Go.Itoa id +:+ "/vlans/").
Proof. sequence_method @GetVlansInl2Domain. Qed.

Lemma GetSubnetsByCIDR_reads (cidr : string) :
  reads_sequence KSubnet (GetSubnetsByCIDR cidr)
    ("/subnets/cidr/" +:+ cidr +:+ "/").
Proof. sequence_method @GetSubnetsByCIDR. Qed.

Lemma GetSubnetsByCIDRAndSection_reads (cidr : string) (section_id : Go.int) :
  reads_sequence KSubnet (GetSubnetsByCIDRAndSection cidr section_id)
    ("/subnets/cidr/" +:+ cidr +:+ "/?filter_by=sectionId&filter_value="
     +:+ Go.Itoa section_id).
Proof. sequence_method @GetSubnetsByCIDRAndSection. Qed.

Lemma GetAddressesInSubnet_reads (id : Go.int) :
  reads_sequence KAddress (GetAddressesInSubnet id)
    ("/subnets/" +:+ Go.Itoa id +:+ "/addresses/").
Proof. sequence_method @GetAddressesInSubnet. Qed.

Lemma GetSectionByID_reads (id : Go.int) :
  reads_record KSection (GetSectionByID id)
    ("/sections/" +:+ Go.Itoa id +:+ "/").
Proof. record_method @GetSectionByID. Qed.

Lemma GetSectionByName_reads (name : string) :
  reads_record KSection (GetSectionByName name)
    ("/sections/" +:+ name +:+ "/").
Proof. record_method @GetSectionByName. Qed.

Lemma GetAddressByID_reads (id : Go.int) :
  reads_record KAddress (GetAddressByID id)
    ("/addresses/" +:+ Go.Itoa id +:+ "/").
Proof. record_method @GetAddressByID. Qed.

Lemma GetAddressesByIpInSubnet_reads (ipaddr : string) (subnetID : Go.int) :
  reads_record KAddress (GetAddressesByIpInSubnet ipaddr subnetID)
    ("/addresses/" +:+ ipaddr +:+ "/" +:+ Go.Itoa subnetID).
Proof. record_method @GetAddressesByIpInSubnet. Qed.

Lemma GetVLANByID_reads (id : Go.int) :
  reads_record KVLAN (GetVLANByID id) ("/vlans/" +:+ Go.Itoa id +:+ "/").
Proof. record_method @GetVLANByID. Qed.

Lemma GetL2DomainByID_reads (id : Go.int) :
  reads_record KL2Domain (GetL2DomainByID id)
    ("/l2domains/" +:+ Go.Itoa id +:+ "/").
Proof. record_method @GetL2DomainByID. Qed.

Lemma GetSubnetByID_reads (id : Go.int) :
  reads_record KSubnet (GetSubnetByID id)
    ("/subnets/" +:+ Go.Itoa id +:+ "/").
Proof. record_method @GetSubnetByID. Qed.

Lemma ListL2Domains_reads :
  reads_domain_sequence KL2Domain ListL2Domains "/l2domains/".
Proof.
  intros w s out err Hsend. unfold ListL2Domains. run_method Hsend.
  reflexivity.
Qed.

End Reading.

Lemma issued_after_call `{Client} (w : World) (s : Server) (c : Call) :
  issued w (after_call w s c) = [c].
Proof. unfold issued, after_call. cbn. by rewrite drop_app_length. Qed.

Lemma reads_sequence_empty `{Client} (k : Kind)
    (op : M (Go.slice (record Domain k) * Go.error)) (uri : string) :
  reads_sequence k op uri -> empty_array_gives Wire k op uri true.
Proof.
  intros Hreads w s answer Hsend Hlen.
  destruct (Hreads w s answer None Hsend) as (out & Hrun & Helems & Hnil).
  assert (Hnone : Go.elems answer = []).
  { unfold Go.len in Hlen. destruct (Go.elems answer); [ done | ].
    cbn in Hlen. lia. }
  exists out. split; [ done | ]. split.
  - unfold Go.len. by rewrite Helems, Hnone.
  - intros _. apply Hnil in Hnone. by destruct out.
Qed.

Lemma reads_record_error `{Client} (k : Kind)
    (op : M (record Domain k * Go.error)) (uri : string) :
  reads_record k op uri -> error_gives_zero k op uri.
Proof.
  intros Hreads w s e Hsend. split.
  - apply (Hreads w s (zero Wire k) (Some e) Hsend).
  - by destruct k.
Qed.

(** ** Search methods *)




(** ** List methods *)

(** C5, as stated, fails: when the server answers ListSections with an
    empty array, the loop over the decoded records never appends to the
    result, which stays the nil slice it started as. The result is empty
    and there is no error, but the sequence is null. *)
Lemma ListSections_empty_array_is_nil :
  ~ (forall (c : Client) (w : @World c) (s : @Server c)
            (dtos : Go.slice sections.SectionDTO.t),
        @sendRequest c (PtrSlice Wire KSection) (server w) "GET" "/sections/"
                     EmptyStruct Go.nil_slice
        = (s, (dtos, None)) ->
        dtos = Go.make_slice [] ->
        exists (out : Go.slice sections.Section.t) (w' : @World c),
          @ListSections c w = ((out, None), w') /\
          Go.len out = 0 /\
          Go.is_nil out = false).
Proof.
  intros claim.
  destruct (claim examples.empty_server
                  (examples.start examples.empty_server tt) tt
                  (Go.make_slice []) eq_refl eq_refl)
    as (out & w' & Hrun & _ & Hnotnil).
  vm_compute in Hrun. injection Hrun as <- _.
  discriminate Hnotnil.
Qed.

(** C5, amended. For every method that returns a sequence, if the server
    answers with an empty array and no error, the method returns a
    sequence of length zero and no error. ListL2Domains, which returns
    the slice the dispatcher decoded into, returns the empty array as an
    empty slice that is not nil; the methods that convert wire records
    one by one return the nil slice. *)
Theorem empty_array_gives_empty_sequence `{Client} :
  empty_array_gives Wire KSection ListSections "/sections/" true /\
  (forall id : Go.int,
      empty_array_gives Wire KSubnet (GetSubnetsInSection id)
        ("/sections/" +:+ Go.Itoa id +:+ "/subnets/") true) /\
  (forall id : Go.int,
      empty_array_gives Wire KAddress (GetAddressesInSubnet id)
        ("/subnets/" +:+ Go.Itoa id +:+ "/addresses/") true) /\
  (forall id : Go.int,
      empty_array_gives Wire KVLAN (GetVlansInl2Domain id)
        ("/l2domains/" +:+ Go.Itoa id +:+ "/vlans/") true) /\
  (forall name : string,
      empty_array_gives Wire KL2Domain (GetL2DomainByName name)
        ("/l2domains/?filter_by=name&filter_value=" +:+ name) true) /\
  (forall ipaddr : string,
      empty_array_gives Wire KAddress (GetAddressesByIP ipaddr)
        ("/addresses/search/" +:+ ipaddr +:+ "/") true) /\
  (forall id : Go.int,
      empty_array_gives Wire KVLAN (GetVLANsByNumber id)
        ("/vlans/search/" +:+ Go.Itoa id +:+ "/") true) /\
  (forall vlan_id domain_id : Go.int,
      empty_array_gives Wire KVLAN
        (GetVLANsByNumberAndDomainID vlan_id domain_id)
        ("/vlans/search/" +:+ Go.Itoa vlan_id
         +:+ "/?filter_by=domainId&filter_value=" +:+ Go.Itoa domain_id)
        true) /\
  (forall cidr : string,
      empty_array_gives Wire KSubnet (GetSubnetsByCIDR cidr)
        ("/subnets/cidr/" +:+ cidr +:+ "/") true) /\
  (forall (cidr : string) (section_id : Go.int),
      empty_array_gives Wire KSubnet
        (GetSubnetsByCIDRAndSection cidr section_id)
        ("/subnets/cidr/" +:+ cidr +:+ "/?filter_by=sectionId&filter_value="
         +:+ Go.Itoa section_id)
        true) /\
  empty_array_gives Domain KL2Domain ListL2Domains "/l2domains/" false /\
  (forall (w : World) (s : Server),
      sendRequest (PtrSlice Domain KL2Domain) (server w) "GET" "/l2domains/"
                  EmptyStruct Go.nil_slice
      = (s, (Go.make_slice [], None)) ->
      exists out : Go.slice l2domains.L2Domain.t,
        ListL2Domains w
        = ((out, None),
           after_call w s
             (CallSendRequest "GET" "/l2domains/" EmptyStruct
                (PtrSlice Domain KL2Domain))) /\
        Go.len out = 0 /\
        Go.is_nil out = false).
Proof.
  repeat match goal with |- _ /\ _ => split end.
  - apply reads_sequence_empty, ListSections_reads.
  - intros id. apply reads_sequence_empty, GetSubnetsInSection_reads.
  - intros id. apply reads_sequence_empty, GetAddressesInSubnet_reads.
  - intros id. apply reads_sequence_empty, GetVlansInl2Domain_reads.
  - intros name. apply reads_sequence_empty, GetL2DomainByName_reads.
  - intros ipaddr. apply reads_sequence_empty, GetAddressesByIP_reads.
  - intros id. apply reads_sequence_empty, GetVLANsByNumber_reads.
  - intros vlan_id domain_id.
    apply reads_sequence_empty, GetVLANsByNumberAndDomainID_reads.
  - intros cidr. apply reads_sequence_empty, GetSubnetsByCIDR_reads.
  - intros cidr section_id.
    apply reads_sequence_empty, GetSubnetsByCIDRAndSection_reads.
  - intros w s answer Hsend Hlen. exists answer.
    split; [ by apply ListL2Domains_reads | ].
    split; [ exact Hlen | discriminate ].
  - intros w s Hsend. exists (Go.make_slice []).
    split; [ by apply ListL2Domains_reads | ]. split; reflexivity.
Qed.

Lemma empty_array_gives_empty_sequence_witness :
  (exists out : Go.slice sections.Section.t,
      @ListSections examples.empty_server
        (examples.start examples.empty_server tt)
      = ((out, None),
         after_call (examples.start examples.empty_server tt) tt
           (CallSendRequest "GET" "/sections/" EmptyStruct
              (PtrSlice Wire KSection))) /\
      Go.len out = 0 /\
      (true = true -> out = Go.nil_slice)) /\
  (exists out : Go.slice l2domains.L2Domain.t,
      @ListL2Domains examples.empty_server
        (examples.start examples.empty_server tt)
      = ((out, None),
         after_call (examples.start examples.empty_server tt) tt
           (CallSendRequest "GET" "/l2domains/" EmptyStruct
              (PtrSlice Domain KL2Domain))) /\
      Go.len out = 0 /\
      Go.is_nil out = false).
Proof.
  pose proof (@empty_array_gives_empty_sequence examples.empty_server)
    as (Hsections & _ & _ & _ & _ & _ & _ & _ & _ & _ & _ & Hl2domains).
  split.
  - apply (Hsections (examples.start examples.empty_server tt) tt
             (Go.make_slice [])).
    + reflexivity.
    + reflexivity.
  - apply (Hl2domains (examples.start examples.empty_server tt) tt).
    reflexivity.
Defined.

(** C7, where the code departs from it: ListL2Domains hands the dispatcher
    its own result, a slice of domain records, as the destination to
    decode into, and returns that slice as the dispatcher left it. No wire
    record is built and FromDTO is not applied. *)
Theorem ListL2Domains_decodes_into_domain_records `{Client} (w : World) :
  exists (s : Server) (out : Go.slice l2domains.L2Domain.t) (err : Go.error),
    sendRequest (PtrSlice Domain KL2Domain) (server w) "GET" "/l2domains/"
                EmptyStruct Go.nil_slice
    = (s, (out, err)) /\
    ListL2Domains w
    = ((out, err),
       after_call w s
         (CallSendRequest "GET" "/l2domains/" EmptyStruct
            (PtrSlice Domain KL2Domain))) /\
    issued w (ListL2Domains w).2
    = [CallSendRequest "GET" "/l2domains/" EmptyStruct
         (PtrSlice Domain KL2Domain)].
Proof.
  destruct (sendRequest (PtrSlice Domain KL2Domain) (server w) "GET"
              "/l2domains/" EmptyStruct Go.nil_slice)
    as [s [out err]] eqn:Hsend.
  exists s, out, err. split; [ reflexivity | ].
  pose proof (ListL2Domains_reads w s out err Hsend) as Hrun.
  split; [ exact Hrun | ]. rewrite Hrun. apply issued_after_call.
Qed.

(** ** Deleting a section *)

(** C8. For every id, DeleteSection makes exactly one call on the client: a
    DELETE of the section's own path. It returns the error of that call
    and makes no other call, so nothing is enumerated or deleted below the
    section by the client. *)
Theorem DeleteSection_single_call `{Client} (id : Go.int) (w : World) :
  exists (s : Server) (err : Go.error),
    sendRequest PtrEmptyStruct (server w) "DELETE"
                ("/sections/" +:+ Go.Itoa id +:+ "/") EmptyStruct tt
    = (s, (tt, err)) /\
    DeleteSection id w
    = (err,
       after_call w s
         (CallSendRequest "DELETE" ("/sections/" +:+ Go.Itoa id +:+ "/")
            EmptyStruct PtrEmptyStruct)) /\
    issued w (DeleteSection id w).2
    = [CallSendRequest "DELETE" ("/sections/" +:+ Go.Itoa id +:+ "/")
         EmptyStruct PtrEmptyStruct].
Proof.
  destruct (sendRequest PtrEmptyStruct (server w) "DELETE"
              ("/sections/" +:+ Go.Itoa id +:+ "/") EmptyStruct tt)
    as [s [[] err]] eqn:Hsend.
  exists s, err. split; [ reflexivity | ].
  assert (Hrun : DeleteSection id w
                 = (err,
                    after_call w s
                      (CallSendRequest "DELETE"
                         ("/sections/" +:+ Go.Itoa id +:+ "/")
                         EmptyStruct PtrEmptyStruct))).
  { unfold DeleteSection, mbind, M_bind, SendRequest.
    cbn [content] in Hsend |- *. by rewrite Hsend. }
  split; [ exact Hrun | ]. rewrite Hrun. apply issued_after_call.
Qed.

Example DeleteSection_path :
  issued (examples.start examples.empty_server tt)
         (@DeleteSection examples.empty_server 12
            (examples.start examples.empty_server tt)).2
  = [CallSendRequest "DELETE" "/sections/12/" EmptyStruct PtrEmptyStruct].
Proof. reflexivity. Qed.

(** ** Reading one record when the dispatcher fails *)

(** C10, as stated, fails: an error of SendRequest does not mean that the
    wire record is still zero. Against a dispatcher that has filled the
    record when it finds the error, GetSectionByID converts the filled
    record and returns it with the error, not the zero domain record. *)
Lemma GetSectionByID_error_with_filled_record :
  ~ (forall (c : Client) (id : Go.int) (w : @World c) (s : @Server c)
            (dto : sections.SectionDTO.t) (e : string),
        @sendRequest c (PtrRecord Wire KSection) (server w) "GET"
                     ("/sections/" +:+ Go.Itoa id +:+ "/") EmptyStruct
                     (zero Wire KSection)
        = (s, (dto, Some e)) ->
        (@GetSectionByID c id w).1 = (zero Domain KSection, Some e)).
Proof.
  intros claim.
  specialize (claim examples_rest.failing_late 1
                    (examples.start examples_rest.failing_late tt) tt
                    examples_rest.section_lab
                    "unexpected end of JSON input" eq_refl).
  vm_compute in claim. discriminate claim.
Qed.

(** C10, amended. GetSectionByID, GetVLANByID and GetSubnetByID do not
    look at the error before they convert: each returns FromDTO of
    whatever the call left in the wire record, together with the error of
    the call. So when SendRequest returns an error and has left the zero
    wire record untouched, each of them applies FromDTO to that zero
    record and returns the result, the zero domain record, together with
    the error. Every field of a zero domain record holds the zero value
    of its type: 0, the empty string, false, the nil map. *)
Theorem get_by_id_returns_zero_record_on_error `{Client} (id : Go.int) :
  (reads_record KSection (GetSectionByID id)
     ("/sections/" +:+ Go.Itoa id +:+ "/") /\
   error_gives_zero KSection (GetSectionByID id)
     ("/sections/" +:+ Go.Itoa id +:+ "/")) /\
  (reads_record KVLAN (GetVLANByID id)
     ("/vlans/" +:+ Go.Itoa id +:+ "/") /\
   error_gives_zero KVLAN (GetVLANByID id)
     ("/vlans/" +:+ Go.Itoa id +:+ "/")) /\
  (reads_record KSubnet (GetSubnetByID id)
     ("/subnets/" +:+ Go.Itoa id +:+ "/") /\
   error_gives_zero KSubnet (GetSubnetByID id)
     ("/subnets/" +:+ Go.Itoa id +:+ "/")) /\
  (forall (k : Kind) (name : string) (v : reflect.Value),
      (name, v) ∈ fields Domain k (zero Domain k) ->
      reflect.is_zero v = true).
Proof.
  split; [ | split; [ | split ] ].
  - split; [ | apply reads_record_error ]; apply GetSectionByID_reads.
  - split; [ | apply reads_record_error ]; apply GetVLANByID_reads.
  - split; [ | apply reads_record_error ]; apply GetSubnetByID_reads.
  - intros k name v Hfield. destruct k; cbn in Hfield.
    all: field_cases Hfield; by simplify_eq.
Qed.

Lemma get_by_id_returns_zero_record_on_error_witness :
  @GetSubnetByID examples.offline 7 (examples.start examples.offline tt)
  = ((FromDTO KSubnet (zero Domain KSubnet) (zero Wire KSubnet),
      Some "connection refused"),
     after_call (examples.start examples.offline tt) tt
       (CallSendRequest "GET" "/subnets/7/" EmptyStruct
          (PtrRecord Wire KSubnet))) /\
  FromDTO KSubnet (zero Domain KSubnet) (zero Wire KSubnet)
  = zero Domain KSubnet.
Proof.
  apply (proj2 (proj1 (proj2 (proj2
           (@get_by_id_returns_zero_record_on_error examples.offline 7))))
           (examples.start examples.offline tt) tt "connection refused").
  reflexivity.
Defined.

Example GetSubnetByID_offline :
  @GetSubnetByID examples.offline 7 (examples.start examples.offline tt)
  = ((subnets.Subnet.zero, Some "connection refused"),
     after_call (examples.start examples.offline tt) tt
       (CallSendRequest "GET" "/subnets/7/" EmptyStruct
          (PtrRecord Wire KSubnet))).
Proof. reflexivity. Qed.

(** ** Updating the custom fields of a VLAN *)

Lemma customFieldFound_elem_of (k : string) (ls : list string) :
  customFieldFound k ls = true <-> k ∈ ls.
Proof.
  induction ls as [ | l ls IH ]; cbn.
  - split; [ discriminate | by intros ?%elem_of_nil ].
  - rewrite elem_of_cons. destruct (String.eqb_spec k l) as [-> | Hne].
    + split; auto.
    + rewrite IH. split; [ auto | by intros [ | ] ].
Qed.

Lemma verifyCustomFields_Some (ks ls : list string) (k : string) :
  verifyCustomFields ks ls = Some k -> k ∈ ks /\ k ∉ ls.
Proof.
  induction ks as [ | k' ks IH ]; cbn; [ discriminate | ].
  destruct (customFieldFound k' ls) eqn:Hfound.
  - intros [Hin Hnot]%IH. split; [ by apply list_elem_of_further | done ].
  - intros [= ->]. split; [ apply list_elem_of_here | ].
    intros Hin%customFieldFound_elem_of. congruence.
Qed.

Lemma verifyCustomFields_None (ks ls : list string) :
  verifyCustomFields ks ls = None <-> (forall k, k ∈ ks -> k ∈ ls).
Proof.
  induction ks as [ | k' ks IH ]; cbn.
  - split; [ by intros _ k ?%elem_of_nil | done ].
  - destruct (customFieldFound k' ls) eqn:Hfound.
    + rewrite IH. apply customFieldFound_elem_of in Hfound. split.
      * intros Hall k [-> | Hin]%elem_of_cons; auto.
      * intros Hall k Hin. apply Hall. by apply list_elem_of_further.
    + split; [ discriminate | ]. intros Hall.
      assert (Hin : k' ∈ ls) by apply Hall, list_elem_of_here.
      apply customFieldFound_elem_of in Hin. congruence.
Qed.

Section Ranging.
Context `{Go.RangeOrder}.

Lemma range_keys_has_key {V} (m : Go.gomap V) (k : string) :
  k ∈ Go.range_keys m <-> Go.has_key m k.
Proof.
  unfold Go.range_keys, Go.has_key. rewrite list_elem_of_fmap. split.
  - intros ([k' v] & -> & Hin). rewrite Go.range_visits_all in Hin.
    apply elem_of_map_to_list in Hin. by exists v.
  - intros [v Hv]. exists (k, v). split; [ done | ].
    rewrite Go.range_visits_all. by apply elem_of_map_to_list.
Qed.

Lemma insert_loop_from {V} (l : list (string * V)) (params : gmap string V) :
  NoDup (l.*1) ->
  foldl (fun params '(k, v) => <[k := v]> params) params l
  = list_to_map l ∪ params.
Proof.
  revert params. induction l as [ | [k v] l IH ]; intros params Hnodup; cbn.
  - by rewrite (left_id_L ∅ (∪)).
  - apply NoDup_cons in Hnodup as [Hfresh Hnodup].
    rewrite IH by done.
    rewrite <- insert_union_l.
    by rewrite <- insert_union_r by by apply not_elem_of_list_to_map_1.
Qed.

(* the loop that copies the update map into params *)
Lemma copy_loop {V} (m : Go.gomap V) :
  foldl (fun params '(k, v) => <[k := v]> params) ∅ (Go.range_entries m)
  = Go.entries m.
Proof.
  unfold Go.range_entries.
  assert (Hnodup : NoDup ((Go.range (Go.entries m)).*1)).
  { rewrite Go.range_visits_all. apply NoDup_fst_map_to_list. }
  rewrite insert_loop_from by done.
  rewrite (right_id_L ∅ (∪)).
  rewrite (list_to_map_proper _ (map_to_list (Go.entries m)))
    by (done || apply Go.range_visits_all).
  apply list_to_map_to_list.
Qed.

End Ranging.

Section UpdatingCustomFields.
Context `{Client} `{Go.RangeOrder}.

Lemma issued_after_two_calls (w : World) (s s' : Server) (c c' : Call) :
  issued w (after_call (after_call w s c) s' c') = [c; c'].
Proof.
  unfold issued, after_call. cbn.
  by rewrite <- app_assoc, drop_app_length.
Qed.

Lemma UpdateVLANCustomFields_fetch_failed (id : Go.int) (name : string)
    (in_ : Go.gomap Go.iface) (w : World) (s : Server)
    (schema : Go.gomap phpipam.CustomField) (e : string) :
  getCustomFieldsSchema (server w) "vlans" = (s, (schema, Some e)) ->
  UpdateVLANCustomFields id name in_ w
  = (("", Some e), after_call w s (CallGetCustomFieldsSchema "vlans")).
Proof.
  intros Hfetch.
  unfold UpdateVLANCustomFields, GetVLANCustomFieldsSchema,
    GetCustomFieldsSchema, mbind, M_bind.
  by rewrite Hfetch.
Qed.

Lemma UpdateVLANCustomFields_rejected (id : Go.int) (name : string)
    (in_ : Go.gomap Go.iface) (w : World) (s : Server)
    (schema : Go.gomap phpipam.CustomField) (k : string) :
  getCustomFieldsSchema (server w) "vlans" = (s, (schema, None)) ->
  verifyCustomFields (Go.range_keys in_) (Go.range_keys schema) = Some k ->
  UpdateVLANCustomFields id name in_ w
  = (("", customFieldNotFound k),
     after_call w s (CallGetCustomFieldsSchema "vlans")).
Proof.
  intros Hfetch Hverify.
  unfold UpdateVLANCustomFields, GetVLANCustomFieldsSchema,
    GetCustomFieldsSchema, mbind, M_bind.
  rewrite Hfetch. cbn beta iota. by rewrite Hverify.
Qed.

Lemma UpdateVLANCustomFields_accepted (id : Go.int) (name : string)
    (in_ : Go.gomap Go.iface) (w : World) (s s' : Server)
    (schema : Go.gomap phpipam.CustomField) (message : string)
    (err : Go.error) :
  getCustomFieldsSchema (server w) "vlans" = (s, (schema, None)) ->
  verifyCustomFields (Go.range_keys in_) (Go.range_keys schema) = None ->
  sendRequest PtrString s "PATCH" "/vlans/" (patch_body id name in_) ""
  = (s', (message, err)) ->
  UpdateVLANCustomFields id name in_ w
  = ((message, err),
     after_call (after_call w s (CallGetCustomFieldsSchema "vlans")) s'
       (CallSendRequest "PATCH" "/vlans/" (patch_body id name in_)
          PtrString)).
Proof.
  intros Hfetch Hverify Hsend.
  unfold UpdateVLANCustomFields, GetVLANCustomFieldsSchema,
    GetCustomFieldsSchema, SendRequest, mbind, M_bind.
  rewrite Hfetch. cbn beta iota. rewrite Hverify. cbn beta iota zeta.
  rewrite copy_loop. cbn [server calls content].
  unfold patch_body in Hsend. cbn [content] in Hsend. by rewrite Hsend.
Qed.

End UpdatingCustomFields.

Lemma GetVLANCustomFieldsSchema_returns `{Client} (w w1 : World)
    (schema : Go.gomap phpipam.CustomField) (err : Go.error) :
  GetVLANCustomFieldsSchema w = ((schema, err), w1) <->
  exists s : Server,
    getCustomFieldsSchema (server w) "vlans" = (s, (schema, err)) /\
    w1 = after_call w s (CallGetCustomFieldsSchema "vlans").
Proof.
  unfold GetVLANCustomFieldsSchema, GetCustomFieldsSchema, after_call.
  destruct (getCustomFieldsSchema (server w) "vlans") as [s [schema' err']].
  split.
  - intros [= -> -> <-]. by exists s.
  - intros (s' & [= -> -> ->] & ->). reflexivity.
Qed.

(** C1. Whatever schema GetVLANCustomFieldsSchema returns: if some key of
    the update map is absent from the schema, UpdateVLANCustomFields
    returns an error whose message names a key of the update map that is
    absent from the schema, and the fetch of the schema is the only call
    it has made, so no mutating call. And whenever a mutating call is
    issued, the schema was fetched without error before it and every key
    of the update map occurs in the schema. *)
Theorem UpdateVLANCustomFields_validates_before_PATCH
    `{Client} `{Go.RangeOrder} (id : Go.int) (name : string)
    (in_ : Go.gomap Go.iface) (w : World) :
  (forall (schema : Go.gomap phpipam.CustomField) (w1 : World),
      GetVLANCustomFieldsSchema w = ((schema, None), w1) ->
      (exists k : string, Go.has_key in_ k /\ ~ Go.has_key schema k) ->
      exists k : string,
        Go.has_key in_ k /\ ~ Go.has_key schema k /\
        UpdateVLANCustomFields id name in_ w
        = (("", Some ("Custom field " +:+ k
                      +:+ " not found in schema for controller vlans")),
           w1) /\
        issued w w1 = [CallGetCustomFieldsSchema "vlans"] /\
        filter (fun c => mutating c = true) (issued w w1) = []) /\
  (forall c : Call,
      c ∈ issued w (UpdateVLANCustomFields id name in_ w).2 ->
      mutating c = true ->
      exists (schema : Go.gomap phpipam.CustomField) (w1 : World),
        GetVLANCustomFieldsSchema w = ((schema, None), w1) /\
        (forall k : string, Go.has_key in_ k -> Go.has_key schema k) /\
        issued w (UpdateVLANCustomFields id name in_ w).2
        = [CallGetCustomFieldsSchema "vlans"; c]).
Proof.
  split.
  - intros schema w1 (s & Hfetch & ->)%GetVLANCustomFieldsSchema_returns
      (k0 & Hin0 & Hnot0).
    destruct (verifyCustomFields (Go.range_keys in_) (Go.range_keys schema))
      as [k | ] eqn:Hverify.
    + apply verifyCustomFields_Some in Hverify as Hk.
      destruct Hk as [Hin Hnot]. exists k.
      rewrite range_keys_has_key in Hin. rewrite range_keys_has_key in Hnot.
      rewrite (UpdateVLANCustomFields_rejected _ _ _ _ _ _ _ Hfetch Hverify).
      rewrite issued_after_call. done.
    + exfalso. apply Hnot0, range_keys_has_key.
      rewrite verifyCustomFields_None in Hverify.
      by apply Hverify, range_keys_has_key.
  - intros c Hc Hmut.
    destruct (getCustomFieldsSchema (server w) "vlans")
      as [s [schema [e | ]]] eqn:Hfetch.
    { rewrite (UpdateVLANCustomFields_fetch_failed _ _ _ _ _ _ _ Hfetch)
        in Hc.
      cbn [snd] in Hc. rewrite issued_after_call in Hc.
      apply list_elem_of_singleton in Hc as ->. discriminate Hmut. }
    destruct (verifyCustomFields (Go.range_keys in_) (Go.range_keys schema))
      as [k | ] eqn:Hverify.
    { rewrite (UpdateVLANCustomFields_rejected _ _ _ _ _ _ _ Hfetch Hverify)
        in Hc.
      cbn [snd] in Hc. rewrite issued_after_call in Hc.
      apply list_elem_of_singleton in Hc as ->. discriminate Hmut. }
    destruct (sendRequest PtrString s "PATCH" "/vlans/"
                (patch_body id name in_) "")
      as [s' [message err]] eqn:Hsend.
    rewrite (UpdateVLANCustomFields_accepted _ _ _ _ _ _ _ _ _
               Hfetch Hverify Hsend) in Hc |- *.
    cbn [snd] in Hc |- *. rewrite issued_after_two_calls in Hc |- *.
    exists schema, (after_call w s (CallGetCustomFieldsSchema "vlans")).
    split; [ apply GetVLANCustomFieldsSchema_returns; by exists s | ]. split.
    + intros k Hk. apply range_keys_has_key.
      rewrite verifyCustomFields_None in Hverify.
      by apply Hverify, range_keys_has_key.
    + apply elem_of_cons in Hc as [-> | Hc]; [ discriminate Hmut | ].
      by apply list_elem_of_singleton in Hc as ->.
Qed.

Lemma UpdateVLANCustomFields_validates_before_PATCH_witness :
  exists k : string,
    Go.has_key examples.unknown_update k /\
    ~ Go.has_key (Go.make_map examples.declared) k /\
    @UpdateVLANCustomFields examples.empty_server examples.listing_order
      5 "mgmt" examples.unknown_update
      (examples.start examples.empty_server tt)
    = (("", Some ("Custom field " +:+ k
                  +:+ " not found in schema for controller vlans")),
       after_call (examples.start examples.empty_server tt) tt
         (CallGetCustomFieldsSchema "vlans")) /\
    issued (examples.start examples.empty_server tt)
      (after_call (examples.start examples.empty_server tt) tt
         (CallGetCustomFieldsSchema "vlans"))
    = [CallGetCustomFieldsSchema "vlans"] /\
    filter (fun c => mutating c = true)
      (issued (examples.start examples.empty_server tt)
         (after_call (examples.start examples.empty_server tt) tt
            (CallGetCustomFieldsSchema "vlans")))
    = [].
Proof.
  apply (proj1 (@UpdateVLANCustomFields_validates_before_PATCH
                  examples.empty_server examples.listing_order
                  5 "mgmt" examples.unknown_update
                  (examples.start examples.empty_server tt))
           (Go.make_map examples.declared)).
  - reflexivity.
  - exists "unknown_key". split.
    + exists (Go.i_string "x"). reflexivity.
    + intros [v Hv]. vm_compute in Hv. discriminate Hv.
Defined.

Example UpdateVLANCustomFields_unknown_key :
  @UpdateVLANCustomFields examples.empty_server examples.listing_order
    5 "mgmt" examples.unknown_update (examples.start examples.empty_server tt)
  = (("", Some "Custom field unknown_key not found in schema for controller vlans"),
     after_call (examples.start examples.empty_server tt) tt
       (CallGetCustomFieldsSchema "vlans")).
Proof. vm_compute. reflexivity. Qed.

(** C6. For every id, name and update map whose keys all occur in the
    schema that was fetched, UpdateVLANCustomFields issues, after the
    fetch, exactly one request: a PATCH of /vlans/ whose body is the
    update map with the key "id" set to the id and the key "name" set to
    the name. It returns the message and the error of that request. *)
Theorem UpdateVLANCustomFields_single_PATCH
    `{Client} `{Go.RangeOrder} (id : Go.int) (name : string)
    (in_ : Go.gomap Go.iface) (w w1 : World)
    (schema : Go.gomap phpipam.CustomField) :
  GetVLANCustomFieldsSchema w = ((schema, None), w1) ->
  (forall k : string, Go.has_key in_ k -> Go.has_key schema k) ->
  exists (body : Body) (message : string) (err : Go.error) (w2 : World),
    body = Params (Go.make_map
                     (<["name" := Go.i_string name]>
                        (<["id" := Go.i_int id]> (Go.entries in_)))) /\
    SendRequest (d := PtrString) "PATCH" "/vlans/" body "" w1
    = ((message, err), w2) /\
    UpdateVLANCustomFields id name in_ w = ((message, err), w2) /\
    issued w w2
    = [CallGetCustomFieldsSchema "vlans";
       CallSendRequest "PATCH" "/vlans/" body PtrString] /\
    filter (fun c => mutating c = true) (issued w w2)
    = [CallSendRequest "PATCH" "/vlans/" body PtrString].
Proof.
  intros (s & Hfetch & ->)%GetVLANCustomFieldsSchema_returns Hkeys.
  assert (Hverify : verifyCustomFields (Go.range_keys in_)
                      (Go.range_keys schema) = None).
  { apply verifyCustomFields_None. intros k Hk.
    by apply range_keys_has_key, Hkeys, range_keys_has_key. }
  destruct (sendRequest PtrString s "PATCH" "/vlans/"
              (patch_body id name in_) "")
    as [s' [message err]] eqn:Hsend.
  exists (patch_body id name in_), message, err,
    (after_call (after_call w s (CallGetCustomFieldsSchema "vlans")) s'
       (CallSendRequest "PATCH" "/vlans/" (patch_body id name in_)
          PtrString)).
  split; [ reflexivity | ]. split.
  { unfold SendRequest, after_call. cbn [server calls content] in Hsend |- *.
    by rewrite Hsend. }
  rewrite (UpdateVLANCustomFields_accepted _ _ _ _ _ _ _ _ _
             Hfetch Hverify Hsend).
  rewrite issued_after_two_calls. done.
Qed.

Lemma UpdateVLANCustomFields_single_PATCH_witness :
  exists (body : Body) (message : string) (err : Go.error)
         (w2 : @World examples.empty_server),
    body = Params (Go.make_map
                     (<["name" := Go.i_string "mgmt"]>
                        (<["id" := Go.i_int 5]>
                           (Go.entries examples.asset_update)))) /\
    @SendRequest examples.empty_server PtrString "PATCH" "/vlans/" body ""
      (after_call (examples.start examples.empty_server tt) tt
         (CallGetCustomFieldsSchema "vlans"))
    = ((message, err), w2) /\
    @UpdateVLANCustomFields examples.empty_server examples.listing_order
      5 "mgmt" examples.asset_update (examples.start examples.empty_server tt)
    = ((message, err), w2) /\
    issued (examples.start examples.empty_server tt) w2
    = [CallGetCustomFieldsSchema "vlans";
       CallSendRequest "PATCH" "/vlans/" body PtrString] /\
    filter (fun c => mutating c = true)
      (issued (examples.start examples.empty_server tt) w2)
    = [CallSendRequest "PATCH" "/vlans/" body PtrString].
Proof.
  apply (@UpdateVLANCustomFields_single_PATCH
           examples.empty_server examples.listing_order
           5 "mgmt" examples.asset_update
           (examples.start examples.empty_server tt)
           (after_call (examples.start examples.empty_server tt) tt
              (CallGetCustomFieldsSchema "vlans"))
           (Go.make_map examples.declared)).
  - reflexivity.
  - intros k [v Hv]. cbn in Hv.
    apply lookup_singleton_Some in Hv as [<- _].
    exists {| phpipam.descriptor := "varchar(64)" |}. reflexivity.
Defined.

Example UpdateVLANCustomFields_asset_tag :
  (@UpdateVLANCustomFields examples.empty_server examples.listing_order
     5 "mgmt" examples.asset_update
     (examples.start examples.empty_server tt)).1
  = ("", None) /\
  issued (examples.start examples.empty_server tt)
    (@UpdateVLANCustomFields examples.empty_server examples.listing_order
       5 "mgmt" examples.asset_update
       (examples.start examples.empty_server tt)).2
  = [CallGetCustomFieldsSchema "vlans";
     CallSendRequest "PATCH" "/vlans/"
       (Params (Go.make_map {[ "asset_tag" := Go.i_string "A123";
                               "id" := Go.i_int 5;
                               "name" := Go.i_string "mgmt" ]}))
       PtrString].
Proof. split; vm_compute; reflexivity. Qed.


(** * Further properties *)

(** ** More on updating the custom fields of a VLAN *)

(** X1. When the fetch of the schema fails, UpdateVLANCustomFields returns
    the error of the fetch with an empty message, whatever the update map
    holds, and the fetch is the only call it has made. *)
Theorem UpdateVLANCustomFields_returns_fetch_error
    `{Client} `{Go.RangeOrder} (id : Go.int) (name : string)
    (in_ : Go.gomap Go.iface) (w w1 : World)
    (schema : Go.gomap phpipam.CustomField) (e : string) :
  GetVLANCustomFieldsSchema w = ((schema, Some e), w1) ->
  UpdateVLANCustomFields id name in_ w = (("", Some e), w1) /\
  issued w w1 = [CallGetCustomFieldsSchema "vlans"].
Proof.
  intros (s & Hfetch & ->)%GetVLANCustomFieldsSchema_returns.
  split.
  - by apply UpdateVLANCustomFields_fetch_failed with (schema := schema).
  - apply issued_after_call.
Qed.

Lemma UpdateVLANCustomFields_returns_fetch_error_witness :
  @UpdateVLANCustomFields examples.offline examples.listing_order
    5 "mgmt" examples.asset_update (examples.start examples.offline tt)
  = (("", Some "connection refused"),
     after_call (examples.start examples.offline tt) tt
       (CallGetCustomFieldsSchema "vlans")) /\
  issued (examples.start examples.offline tt)
    (after_call (examples.start examples.offline tt) tt
       (CallGetCustomFieldsSchema "vlans"))
  = [CallGetCustomFieldsSchema "vlans"].
Proof.
  apply (@UpdateVLANCustomFields_returns_fetch_error
           examples.offline examples.listing_order 5 "mgmt"
           examples.asset_update (examples.start examples.offline tt)
           (after_call (examples.start examples.offline tt) tt
              (CallGetCustomFieldsSchema "vlans"))
           Go.nil_map "connection refused").
  reflexivity.
Defined.

Lemma verifyCustomFields_first_missing (before after ls : list string)
    (k : string) :
  (forall k', k' ∈ before -> k' ∈ ls) ->
  k ∉ ls ->
  verifyCustomFields (before ++ k :: after)%list ls = Some k.
Proof.
  intros Hbefore Hk. induction before as [ | k' before IH ]; cbn.
  - destruct (customFieldFound k ls) eqn:Hfound; [ | reflexivity ].
    by apply customFieldFound_elem_of in Hfound.
  - assert (Hk' : customFieldFound k' ls = true).
    { apply customFieldFound_elem_of, Hbefore, list_elem_of_here. }
    rewrite Hk'. apply IH. intros k'' Hin.
    by apply Hbefore, list_elem_of_further.
Qed.

(** X2. The error names the first key the range loop over the update map
    meets that is absent from the schema: if the loop visits the keys
    [before], all found in the schema, and then [k], which is not, the
    message names [k], whatever keys come after it. *)
Theorem UpdateVLANCustomFields_names_first_missing_key
    `{Client} `{Go.RangeOrder} (id : Go.int) (name : string)
    (in_ : Go.gomap Go.iface) (w w1 : World)
    (schema : Go.gomap phpipam.CustomField)
    (before after : list string) (k : string) :
  GetVLANCustomFieldsSchema w = ((schema, None), w1) ->
  Go.range_keys in_ = (before ++ k :: after)%list ->
  (forall k' : string, k' ∈ before -> Go.has_key schema k') ->
  ~ Go.has_key schema k ->
  UpdateVLANCustomFields id name in_ w
  = (("", Some ("Custom field " +:+ k
                +:+ " not found in schema for controller vlans")),
     w1).
Proof.
  intros (s & Hfetch & ->)%GetVLANCustomFieldsSchema_returns
    Hrange Hbefore Hk.
  apply UpdateVLANCustomFields_rejected with (schema := schema);
    [ done | ].
  rewrite Hrange. apply verifyCustomFields_first_missing.
  - intros k' Hin. by apply range_keys_has_key, Hbefore.
  - by rewrite range_keys_has_key.
Qed.

Lemma UpdateVLANCustomFields_names_first_missing_key_witness :
  @UpdateVLANCustomFields examples.empty_server examples_rest.reverse_order
    5 "mgmt" examples_rest.mixed_update
    (examples.start examples.empty_server tt)
  = (("", Some ("Custom field " +:+ "unknown_key"
                +:+ " not found in schema for controller vlans")),
     after_call (examples.start examples.empty_server tt) tt
       (CallGetCustomFieldsSchema "vlans")).
Proof.
  apply (@UpdateVLANCustomFields_names_first_missing_key
           examples.empty_server examples_rest.reverse_order 5 "mgmt"
           examples_rest.mixed_update
           (examples.start examples.empty_server tt)
           (after_call (examples.start examples.empty_server tt) tt
              (CallGetCustomFieldsSchema "vlans"))
           (Go.make_map examples.declared)
           ["asset_tag"] [] "unknown_key").
  - reflexivity.
  - vm_compute. reflexivity.
  - intros k' ->%list_elem_of_singleton.
    exists {| phpipam.descriptor := "varchar(64)" |}. reflexivity.
  - intros [v Hv]. vm_compute in Hv. discriminate Hv.
Defined.

Lemma range_keys_empty `{Go.RangeOrder} {V : Type} (m : Go.gomap V) :
  Go.entries m = ∅ -> Go.range_keys m = [].
Proof.
  intros Hempty. unfold Go.range_keys. rewrite Hempty.
  pose proof (Go.range_visits_all V ∅) as Hperm.
  rewrite map_to_list_empty in Hperm.
  apply Permutation_nil_r in Hperm. by rewrite Hperm.
Qed.

(** X3. An update map without entries, nil or allocated, passes the
    validation under every schema the fetch returns, also the nil schema:
    the method issues the PATCH, and its body holds exactly the two keys
    "id" and "name". *)
Theorem UpdateVLANCustomFields_empty_update
    `{Client} `{Go.RangeOrder} (id : Go.int) (name : string)
    (in_ : Go.gomap Go.iface) (w w1 : World)
    (schema : Go.gomap phpipam.CustomField) :
  GetVLANCustomFieldsSchema w = ((schema, None), w1) ->
  Go.entries in_ = ∅ ->
  exists (message : string) (err : Go.error) (w2 : World),
    SendRequest (d := PtrString) "PATCH" "/vlans/"
      (Params (Go.make_map (<["name" := Go.i_string name]>
                              (<["id" := Go.i_int id]> ∅))))
      "" w1
    = ((message, err), w2) /\
    UpdateVLANCustomFields id name in_ w = ((message, err), w2) /\
    dom (<["name" := Go.i_string name]>
           (<["id" := Go.i_int id]> (∅ : gmap string Go.iface)))
    = {[ "id"; "name" ]}.
Proof.
  intros (s & Hfetch & ->)%GetVLANCustomFieldsSchema_returns Hempty.
  assert (Hverify : verifyCustomFields (Go.range_keys in_)
                      (Go.range_keys schema) = None)
    by (by rewrite (range_keys_empty in_)).
  destruct (sendRequest PtrString s "PATCH" "/vlans/"
              (patch_body id name in_) "")
    as [s' [message err]] eqn:Hsend.
  exists message, err,
    (after_call (after_call w s (CallGetCustomFieldsSchema "vlans")) s'
       (CallSendRequest "PATCH" "/vlans/" (patch_body id name in_)
          PtrString)).
  split; [ | split ].
  - unfold patch_body in Hsend |- *. rewrite Hempty in Hsend |- *.
    unfold SendRequest, after_call. cbn [server calls content] in Hsend |- *.
    by rewrite Hsend.
  - by apply UpdateVLANCustomFields_accepted with (schema := schema).
  - rewrite !dom_insert_L, dom_empty_L. set_solver.
Qed.

Lemma UpdateVLANCustomFields_empty_update_witness :
  exists (message : string) (err : Go.error)
         (w2 : @World examples.empty_server),
    @SendRequest examples.empty_server PtrString "PATCH" "/vlans/"
      (Params (Go.make_map (<["name" := Go.i_string "mgmt"]>
                              (<["id" := Go.i_int 5]> ∅))))
      ""
      (after_call (examples.start examples.empty_server tt) tt
         (CallGetCustomFieldsSchema "vlans"))
    = ((message, err), w2) /\
    @UpdateVLANCustomFields examples.empty_server examples.listing_order
      5 "mgmt" Go.nil_map (examples.start examples.empty_server tt)
    = ((message, err), w2) /\
    dom (<["name" := Go.i_string "mgmt"]>
           (<["id" := Go.i_int 5]> (∅ : gmap string Go.iface)))
    = {[ "id"; "name" ]}.
Proof.
  apply (@UpdateVLANCustomFields_empty_update
           examples.empty_server examples.listing_order 5 "mgmt"
           Go.nil_map (examples.start examples.empty_server tt)
           (after_call (examples.start examples.empty_server tt) tt
              (CallGetCustomFieldsSchema "vlans"))
           (Go.make_map examples.declared)).
  - reflexivity.
  - reflexivity.
Defined.

(** X4. The caller cannot set "id" or "name" through the update map: in
    the body of the PATCH the key "id" is bound to the id argument and
    the key "name" to the name argument, also when the update map binds
    them to something else, and every other key is bound as in the update
    map. *)
Theorem UpdateVLANCustomFields_body_lookup
    `{Client} `{Go.RangeOrder} (id : Go.int) (name : string)
    (in_ : Go.gomap Go.iface) (w w1 : World)
    (schema : Go.gomap phpipam.CustomField) :
  GetVLANCustomFieldsSchema w = ((schema, None), w1) ->
  (forall k : string, Go.has_key in_ k -> Go.has_key schema k) ->
  exists params : gmap string Go.iface,
    issued w (UpdateVLANCustomFields id name in_ w).2
    = [CallGetCustomFieldsSchema "vlans";
       CallSendRequest "PATCH" "/vlans/" (Params (Go.make_map params))
         PtrString] /\
    params !! "id" = Some (Go.i_int id) /\
    params !! "name" = Some (Go.i_string name) /\
    (forall k : string,
        k <> "id" -> k <> "name" -> params !! k = Go.entries in_ !! k).
Proof.
  intros (s & Hfetch & ->)%GetVLANCustomFieldsSchema_returns Hkeys.
  assert (Hverify : verifyCustomFields (Go.range_keys in_)
                      (Go.range_keys schema) = None).
  { apply verifyCustomFields_None. intros k Hk.
    by apply range_keys_has_key, Hkeys, range_keys_has_key. }
  destruct (sendRequest PtrString s "PATCH" "/vlans/"
              (patch_body id name in_) "")
    as [s' [message err]] eqn:Hsend.
  rewrite (UpdateVLANCustomFields_accepted _ _ _ _ _ _ _ _ _
             Hfetch Hverify Hsend).
  cbn [snd]. rewrite issued_after_two_calls.
  eexists. split; [ reflexivity | ]. split; [ | split ].
  - rewrite lookup_insert_ne by done. apply lookup_insert_eq.
  - apply lookup_insert_eq.
  - intros k Hid Hname. by rewrite !lookup_insert_ne.
Qed.

Lemma UpdateVLANCustomFields_body_lookup_witness :
  exists params : gmap string Go.iface,
    issued (examples.start examples_rest.lenient tt)
      (@UpdateVLANCustomFields examples_rest.lenient examples.listing_order
         5 "mgmt" examples_rest.overriding_update
         (examples.start examples_rest.lenient tt)).2
    = [CallGetCustomFieldsSchema "vlans";
       CallSendRequest "PATCH" "/vlans/" (Params (Go.make_map params))
         PtrString] /\
    params !! "id" = Some (Go.i_int 5) /\
    params !! "name" = Some (Go.i_string "mgmt") /\
    (forall k : string,
        k <> "id" -> k <> "name" ->
        params !! k = Go.entries examples_rest.overriding_update !! k).
Proof.
  apply (@UpdateVLANCustomFields_body_lookup
           examples_rest.lenient examples.listing_order 5 "mgmt"
           examples_rest.overriding_update
           (examples.start examples_rest.lenient tt)
           (after_call (examples.start examples_rest.lenient tt) tt
              (CallGetCustomFieldsSchema "vlans"))
           (Go.make_map
              {[ "id" := {| phpipam.descriptor := "int" |};
                 "notes" := {| phpipam.descriptor := "text" |} ]})).
  - reflexivity.
  - intros k [v Hv]. cbn in Hv.
    apply lookup_insert_Some in Hv as [[<- _] | [_ Hv]].
    + eexists. reflexivity.
    + apply lookup_singleton_Some in Hv as [<- _]. eexists. reflexivity.
Defined.

Example UpdateVLANCustomFields_overrides_id :
  issued (examples.start examples_rest.lenient tt)
    (@UpdateVLANCustomFields examples_rest.lenient examples.listing_order
       5 "mgmt" examples_rest.overriding_update
       (examples.start examples_rest.lenient tt)).2
  = [CallGetCustomFieldsSchema "vlans";
     CallSendRequest "PATCH" "/vlans/"
       (Params (Go.make_map {[ "id" := Go.i_int 5;
                               "name" := Go.i_string "mgmt";
                               "notes" := Go.i_string "n" ]}))
       PtrString].
Proof. vm_compute. reflexivity. Qed.

(** ** More on the reading methods *)

(** X5. The four methods that list a collection, ListSections,
    GetSubnetsInSection, GetAddressesInSubnet and GetVlansInl2Domain, make
    one GET into a sequence of wire records and return the records that
    FromDTO builds from them, as many and in the same order. They return
    these together with the error of the call: records the dispatcher
    decoded before it failed are converted and returned all the same. *)
Theorem list_methods_keep_order `{Client} :
  reads_sequence KSection ListSections "/sections/" /\
  (forall id : Go.int,
      reads_sequence KSubnet (GetSubnetsInSection id)
        ("/sections/" +:+ Go.Itoa id +:+ "/subnets/")) /\
  (forall id : Go.int,
      reads_sequence KAddress (GetAddressesInSubnet id)
        ("/subnets/" +:+ Go.Itoa id +:+ "/addresses/")) /\
  (forall id : Go.int,
      reads_sequence KVLAN (GetVlansInl2Domain id)
        ("/l2domains/" +:+ Go.Itoa id +:+ "/vlans/")).
Proof.
  split; [ | split; [ | split ] ].
  - apply ListSections_reads.
  - apply GetSubnetsInSection_reads.
  - apply GetAddressesInSubnet_reads.
  - apply GetVlansInl2Domain_reads.
Qed.

Lemma list_methods_keep_order_witness :
  exists out : Go.slice sections.Section.t,
    @ListSections examples_rest.truncating
      (examples.start examples_rest.truncating tt)
    = ((out, Some "unexpected end of JSON input"),
       after_call (examples.start examples_rest.truncating tt) tt
         (CallSendRequest "GET" "/sections/" EmptyStruct
            (PtrSlice Wire KSection))) /\
    Go.elems out
    = decoded KSection
        <$> [examples_rest.section_lab; examples_rest.section_prod] /\
    (Go.is_nil out = true
     <-> [examples_rest.section_lab; examples_rest.section_prod] = []).
Proof.
  apply (proj1 (@list_methods_keep_order examples_rest.truncating)
           (examples.start examples_rest.truncating tt) tt
           (Go.make_slice
              [examples_rest.section_lab; examples_rest.section_prod])
           (Some "unexpected end of JSON input")).
  reflexivity.
Defined.

(** X6. GetAddressByID and GetL2DomainByID behave like the other
    get-by-identifier methods: each makes one GET into a single wire
    record and returns FromDTO of what the call left there together with
    the error of the call, without looking at the error first; when the
    call fails and leaves the zero wire record untouched, the result is
    the zero domain record. *)
Theorem GetAddressByID_GetL2DomainByID_read `{Client} (id : Go.int) :
  (reads_record KAddress (GetAddressByID id)
     ("/addresses/" +:+ Go.Itoa id +:+ "/") /\
   error_gives_zero KAddress (GetAddressByID id)
     ("/addresses/" +:+ Go.Itoa id +:+ "/")) /\
  (reads_record KL2Domain (GetL2DomainByID id)
     ("/l2domains/" +:+ Go.Itoa id +:+ "/") /\
   error_gives_zero KL2Domain (GetL2DomainByID id)
     ("/l2domains/" +:+ Go.Itoa id +:+ "/")).
Proof.
  split.
  - split; [ | apply reads_record_error ]; apply GetAddressByID_reads.
  - split; [ | apply reads_record_error ]; apply GetL2DomainByID_reads.
Qed.

Lemma GetAddressByID_GetL2DomainByID_read_witness :
  @GetAddressByID examples.offline 7 (examples.start examples.offline tt)
  = ((FromDTO KAddress (zero Domain KAddress) (zero Wire KAddress),
      Some "connection refused"),
     after_call (examples.start examples.offline tt) tt
       (CallSendRequest "GET" "/addresses/7/" EmptyStruct
          (PtrRecord Wire KAddress))) /\
  FromDTO KAddress (zero Domain KAddress) (zero Wire KAddress)
  = zero Domain KAddress.
Proof.
  apply (proj2 (proj1
           (@GetAddressByID_GetL2DomainByID_read examples.offline 7))
           (examples.start examples.offline tt) tt "connection refused").
  reflexivity.
Defined.

(** X7. A section whose name is the decimal form of an identifier cannot
    be told apart from that identifier: for every id, GetSectionByName
    called with the digits of id makes the same request and returns the
    same result as GetSectionByID called with id. *)
Theorem GetSectionByName_of_digits_is_GetSectionByID `{Client}
    (id : Go.int) (w : World) :
  GetSectionByName (Go.Itoa id) w = GetSectionByID id w /\
  issued w (GetSectionByName (Go.Itoa id) w).2
  = [CallSendRequest "GET" ("/sections/" +:+ Go.Itoa id +:+ "/")
       EmptyStruct (PtrRecord Wire KSection)].
Proof.
  split; [ reflexivity | ].
  destruct (sendRequest (PtrRecord Wire KSection) (server w) "GET"
              ("/sections/" +:+ Go.Itoa id +:+ "/") EmptyStruct
              (zero Wire KSection))
    as [s [dto err]] eqn:Hsend.
  rewrite (GetSectionByName_reads (Go.Itoa id) w s dto err Hsend).
  apply issued_after_call.
Qed.

(** X8. The two mappings keep unset fields unset: field by field, under
    the same name, a field of the wire record that ToDTO builds holds the
    zero value of its type exactly when the field of the domain record
    does, and likewise for the domain record that FromDTO builds from a
    wire record. *)
Theorem mappings_keep_zero_fields (k : Kind) (r d : record Domain k)
    (w : record Wire k) :
  (fun f => (f.1, reflect.is_zero f.2)) <$> fields Wire k (ToDTO k d)
  = (fun f => (f.1, reflect.is_zero f.2)) <$> fields Domain k d /\
  (fun f => (f.1, reflect.is_zero f.2)) <$> fields Domain k (FromDTO k r w)
  = (fun f => (f.1, reflect.is_zero f.2)) <$> fields Wire k w.
Proof.
  destruct k; destruct d, w;
    repeat match goal with j : phpipam.JSONIntString |- _ => destruct j end;
    split; reflexivity.
Qed.

Lemma reads_sequence_only `{Client} (k : Kind)
    (op : M (Go.slice (record Domain k) * Go.error)) (uri : string) :
  reads_sequence k op uri -> contracts_rest.reads_only op.
Proof.
  intros Hreads w.
  destruct (sendRequest (PtrSlice Wire k) (server w) "GET" uri EmptyStruct
              Go.nil_slice) as [s [dtos err]] eqn:Hsend.
  destruct (Hreads w s dtos err Hsend) as (out & Hrun & _).
  eexists. rewrite Hrun. split; [ apply issued_after_call | reflexivity ].
Qed.

Lemma reads_record_only `{Client} (k : Kind)
    (op : M (record Domain k * Go.error)) (uri : string) :
  reads_record k op uri -> contracts_rest.reads_only op.
Proof.
  intros Hreads w.
  destruct (sendRequest (PtrRecord Wire k) (server w) "GET" uri EmptyStruct
              (zero Wire k)) as [s [dto err]] eqn:Hsend.
  eexists. rewrite (Hreads w s dto err Hsend).
  split; [ apply issued_after_call | reflexivity ].
Qed.

Lemma reads_domain_sequence_only `{Client} (k : Kind)
    (op : M (Go.slice (record Domain k) * Go.error)) (uri : string) :
  reads_domain_sequence k op uri -> contracts_rest.reads_only op.
Proof.
  intros Hreads w.
  destruct (sendRequest (PtrSlice Domain k) (server w) "GET" uri EmptyStruct
              Go.nil_slice) as [s [out err]] eqn:Hsend.
  eexists. rewrite (Hreads w s out err Hsend).
  split; [ apply issued_after_call | reflexivity ].
Qed.

(** X9. Each of the eighteen methods that return records, and
    GetVLANCustomFieldsSchema, makes exactly one call on the client, on
    success and on failure alike, and that call is a GET request or the
    fetch of a schema: no reading method issues a POST, a PATCH or a
    DELETE. *)
Theorem reading_methods_make_one_read_call `{Client} :
  contracts_rest.reads_only ListSections /\
  (forall id, contracts_rest.reads_only (GetSectionByID id)) /\
  (forall name, contracts_rest.reads_only (GetSectionByName name)) /\
  (forall id, contracts_rest.reads_only (GetSubnetsInSection id)) /\
  (forall id, contracts_rest.reads_only (GetAddressByID id)) /\
  (forall ipaddr, contracts_rest.reads_only (GetAddressesByIP ipaddr)) /\
  (forall ipaddr subnetID,
      contracts_rest.reads_only (GetAddressesByIpInSubnet ipaddr subnetID)) /\
  (forall id, contracts_rest.reads_only (GetVLANByID id)) /\
  (forall id, contracts_rest.reads_only (GetVLANsByNumber id)) /\
  (forall vlan_id domain_id,
      contracts_rest.reads_only
        (GetVLANsByNumberAndDomainID vlan_id domain_id)) /\
  contracts_rest.reads_only GetVLANCustomFieldsSchema /\
  contracts_rest.reads_only ListL2Domains /\
  (forall id, contracts_rest.reads_only (GetL2DomainByID id)) /\
  (forall name, contracts_rest.reads_only (GetL2DomainByName name)) /\
  (forall id, contracts_rest.reads_only (GetVlansInl2Domain id)) /\
  (forall id, contracts_rest.reads_only (GetSubnetByID id)) /\
  (forall cidr, contracts_rest.reads_only (GetSubnetsByCIDR cidr)) /\
  (forall cidr section_id,
      contracts_rest.reads_only
        (GetSubnetsByCIDRAndSection cidr section_id)) /\
  (forall id, contracts_rest.reads_only (GetAddressesInSubnet id)).
Proof.
  repeat match goal with |- _ /\ _ => split end.
  - eapply (reads_sequence_only KSection), ListSections_reads.
  - intros id. eapply (reads_record_only KSection), GetSectionByID_reads.
  - intros name. eapply (reads_record_only KSection), GetSectionByName_reads.
  - intros id. eapply (reads_sequence_only KSubnet), GetSubnetsInSection_reads.
  - intros id. eapply (reads_record_only KAddress), GetAddressByID_reads.
  - intros ipaddr. eapply (reads_sequence_only KAddress), GetAddressesByIP_reads.
  - intros ipaddr subnetID.
    eapply (reads_record_only KAddress), GetAddressesByIpInSubnet_reads.
  - intros id. eapply (reads_record_only KVLAN), GetVLANByID_reads.
  - intros id. eapply (reads_sequence_only KVLAN), GetVLANsByNumber_reads.
  - intros vlan_id domain_id.
    eapply (reads_sequence_only KVLAN), GetVLANsByNumberAndDomainID_reads.
  - intros w. unfold GetVLANCustomFieldsSchema, GetCustomFieldsSchema.
    destruct (getCustomFieldsSchema (server w) "vlans") as [s r].
    eexists. split; [ apply (issued_after_call w s) | reflexivity ].
  - eapply (reads_domain_sequence_only KL2Domain), ListL2Domains_reads.
  - intros id. eapply (reads_record_only KL2Domain), GetL2DomainByID_reads.
  - intros name. eapply (reads_sequence_only KL2Domain), GetL2DomainByName_reads.
  - intros id. eapply (reads_sequence_only KVLAN), GetVlansInl2Domain_reads.
  - intros id. eapply (reads_record_only KSubnet), GetSubnetByID_reads.
  - intros cidr. eapply (reads_sequence_only KSubnet), GetSubnetsByCIDR_reads.
  - intros cidr section_id.
    eapply (reads_sequence_only KSubnet), GetSubnetsByCIDRAndSection_reads.
  - intros id. eapply (reads_sequence_only KAddress), GetAddressesInSubnet_reads.
Qed.







(** ** The methods that create, update and delete *)

Lemma decoded_ToDTO (k : Kind) (d : record Domain k) :
  decoded k (ToDTO k d) = d.
Proof. by destruct k; destruct d. Qed.

Section Writing.
Context `{client_all.Client}.
Import controllers_rest contracts_rest.

Lemma issued_after_call_all (w : client_all.World) (s : client_all.Server)
    (c : client_all.Call) :
  client_all.issued w (client_all.after_call w s c) = [c].
Proof.
  unfold client_all.issued, client_all.after_call. cbn.
  by rewrite drop_app_length.
Qed.

(* runs a method that consists of one request *)
Ltac single_request op :=
  intros w; unfold op, mbind, client_all.M_bind, client_all.SendRequest;
  cbn [content record resources.ToDTO];
  match goal with
  | |- context [client_all.sendRequest ?d ?sv ?m ?u ?b ?o] =>
      destruct (client_all.sendRequest d sv m u b o) as [? [? ?]]
  end;
  eexists _, _, _; unfold mret, client_all.M_ret; cbn [snd];
  split; [ reflexivity | split; [ reflexivity | ] ];
  apply issued_after_call_all.

Ltac record_sent op :=
  eexists; split; [ reflexivity | ];
  split; [ apply decoded_ToDTO | ]; single_request op.

(** X10. Each method that creates or updates a resource makes exactly one
    request: a POST, respectively a PATCH, of the collection path whose
    body is the wire record ToDTO builds from the argument, a record from
    which FromDTO gives the argument back, so nothing the caller set is
    lost on the way. CreateSection, CreateAddress, CreateVLAN,
    CreateL2Domain, CreateSubnet, UpdateAddress, UpdateVLAN and
    UpdateSubnet return the message and the error of the request;
    UpdateSection and UpdateL2Domain decode the answer into an empty
    struct and return the error alone. *)
Theorem create_and_update_send_the_wire_record :
  (forall in_ : record Domain KSection,
      sends_record KSection (CreateSection in_) "POST" "/sections/" in_) /\
  (forall in_ : record Domain KSection,
      sends_record_quietly KSection (UpdateSection in_)
        "PATCH" "/sections/" in_) /\
  (forall in_ : record Domain KAddress,
      sends_record KAddress (CreateAddress in_) "POST" "/addresses/" in_) /\
  (forall in_ : record Domain KAddress,
      sends_record KAddress (UpdateAddress in_) "PATCH" "/addresses/" in_) /\
  (forall in_ : record Domain KVLAN,
      sends_record KVLAN (CreateVLAN in_) "POST" "/vlans/" in_) /\
  (forall in_ : record Domain KVLAN,
      sends_record KVLAN (UpdateVLAN in_) "PATCH" "/vlans/" in_) /\
  (forall in_ : record Domain KL2Domain,
      sends_record KL2Domain (CreateL2Domain in_)
        "POST" "/l2domains/" in_) /\
  (forall in_ : record Domain KL2Domain,
      sends_record_quietly KL2Domain (UpdateL2Domain in_)
        "PATCH" "/l2domains/" in_) /\
  (forall in_ : record Domain KSubnet,
      sends_record KSubnet (CreateSubnet in_) "POST" "/subnets/" in_) /\
  (forall in_ : record Domain KSubnet,
      sends_record KSubnet (UpdateSubnet in_) "PATCH" "/subnets/" in_).
Proof.
  repeat match goal with |- _ /\ _ => split end; intros in_.
  - record_sent @CreateSection.
  - record_sent @UpdateSection.
  - record_sent @CreateAddress.
  - record_sent @UpdateAddress.
  - record_sent @CreateVLAN.
  - record_sent @UpdateVLAN.
  - record_sent @CreateL2Domain.
  - record_sent @UpdateL2Domain.
  - record_sent @CreateSubnet.
  - record_sent @UpdateSubnet.
Qed.

(* runs a method that hands over to a method of the client *)
Ltac handed_over op inner :=
  intros w; unfold op, inner; cbn [fst snd];
  match goal with
  | |- context [let '(_, _) := ?answer in _] => destruct answer as [? ?]
  end;
  cbn [fst snd]; split; [ reflexivity | apply issued_after_call_all ].

(** The custom field readers of the addresses, subnets and vlans
    controllers hand over to the client under their own controller's
    name: GetAddressCustomFieldsSchema and GetAddressCustomFields use
    "addresses", GetSubnetCustomFieldsSchema and GetSubnetCustomFields use
    "subnets", GetVLANCustomFields uses "vlans". Each makes that one call,
    passes the id on unchanged and returns the client's answer as it is. *)
Theorem custom_field_readers_use_own_controller :
  delegates GetAddressCustomFieldsSchema
    (fun s => client_all.getCustomFieldsSchema s "addresses")
    (client_all.CallGetCustomFieldsSchema "addresses") /\
  (forall id : Go.int,
      delegates (GetAddressCustomFields id)
        (fun s => client_all.getCustomFields s id "addresses")
        (client_all.CallGetCustomFields id "addresses")) /\
  delegates GetSubnetCustomFieldsSchema
    (fun s => client_all.getCustomFieldsSchema s "subnets")
    (client_all.CallGetCustomFieldsSchema "subnets") /\
  (forall id : Go.int,
      delegates (GetSubnetCustomFields id)
        (fun s => client_all.getCustomFields s id "subnets")
        (client_all.CallGetCustomFields id "subnets")) /\
  (forall id : Go.int,
      delegates (GetVLANCustomFields id)
        (fun s => client_all.getCustomFields s id "vlans")
        (client_all.CallGetCustomFields id "vlans")).
Proof.
  repeat match goal with |- _ /\ _ => split end.
  - handed_over @GetAddressCustomFieldsSchema
      @client_all.GetCustomFieldsSchema.
  - intros id. handed_over @GetAddressCustomFields
                 @client_all.GetCustomFields.
  - handed_over @GetSubnetCustomFieldsSchema
      @client_all.GetCustomFieldsSchema.
  - intros id. handed_over @GetSubnetCustomFields
                 @client_all.GetCustomFields.
  - intros id. handed_over @GetVLANCustomFields @client_all.GetCustomFields.
Qed.

(** X12. UpdateAddressCustomFields and UpdateSubnetCustomFields do nothing
    of their own before they hand over: for every id and every update
    map, whatever its keys, the one call each makes on the client is
    UpdateCustomFields with the id, the map as it is and the controller's
    own name, and each returns the message and the error of that call as
    they are. The controller method itself fetches no schema, compares no
    key and adds no key, unlike UpdateVLANCustomFields; what
    UpdateCustomFields does with the map is up to the client. *)
Theorem custom_field_updates_hand_over_unchanged (id : Go.int)
    (in_ : Go.gomap Go.iface) :
  delegates (UpdateAddressCustomFields id in_)
    (fun s => client_all.updateCustomFields s id in_ "addresses")
    (client_all.CallUpdateCustomFields id in_ "addresses") /\
  delegates (UpdateSubnetCustomFields id in_)
    (fun s => client_all.updateCustomFields s id in_ "subnets")
    (client_all.CallUpdateCustomFields id in_ "subnets").
Proof.
  split.
  - handed_over @UpdateAddressCustomFields @client_all.UpdateCustomFields.
  - handed_over @UpdateSubnetCustomFields @client_all.UpdateCustomFields.
Qed.

(** X13. Each of the other delete methods makes exactly one request, a
    DELETE of the resource's own path, on success and on failure alike.
    DeleteVLAN and DeleteSubnet send an empty body and return the message
    and the error; DeleteL2Domain sends an empty body and returns the
    error alone; DeleteAddress sends the RemoveDNS flag it was given,
    unchanged, as the one field of its body. *)
Theorem delete_methods_single_request (id : Go.int) :
  one_request PtrString (DeleteVLAN id) (fun r => r)
    "DELETE" ("/vlans/" +:+ Go.Itoa id +:+ "/") client_all.EmptyStruct "" /\
  one_request PtrString (DeleteSubnet id) (fun r => r)
    "DELETE" ("/subnets/" +:+ Go.Itoa id +:+ "/") client_all.EmptyStruct "" /\
  one_request PtrEmptyStruct (DeleteL2Domain id) snd
    "DELETE" ("/l2domains/" +:+ Go.Itoa id +:+ "/")
    client_all.EmptyStruct tt /\
  (forall RemoveDNS : phpipam.BoolIntString,
      one_request PtrString (DeleteAddress id RemoveDNS) (fun r => r)
        "DELETE" ("/addresses/" +:+ Go.Itoa id +:+ "/")
        (client_all.RemoveDNSStruct RemoveDNS) "").
Proof.
  split; [ | split; [ | split ] ].
  - single_request @DeleteVLAN.
  - single_request @DeleteSubnet.
  - single_request @DeleteL2Domain.
  - intros RemoveDNS. single_request @DeleteAddress.
Qed.

(** X14. The first-free methods. GetFirstFreeSubnet asks with a GET the
    very path at which CreateFirstFreeSubnet, for the same id and mask,
    POSTs the wire record of its argument. For addresses the two paths
    differ: GetFirstFreeAddress GETs /subnets/<id>/first_free/ and
    CreateFirstFreeAddress POSTs to /addresses/first_free/<id>/. The two
    lookups send an empty body and return the string the call left in a
    destination that starts empty, so a call that stores nothing gives the
    blank string. *)
Theorem first_free_methods (id mask : Go.int) :
  one_request PtrString (GetFirstFreeSubnet id mask) (fun r => r)
    "GET" ("/subnets/" +:+ Go.Itoa id +:+ "/first_subnet/"
           +:+ Go.Itoa mask +:+ "/")
    client_all.EmptyStruct "" /\
  (forall in_ : record Domain KSubnet,
      sends_record KSubnet (CreateFirstFreeSubnet id mask in_)
        "POST" ("/subnets/" +:+ Go.Itoa id +:+ "/first_subnet/"
                +:+ Go.Itoa mask +:+ "/")
        in_) /\
  one_request PtrString (GetFirstFreeAddress id) (fun r => r)
    "GET" ("/subnets/" +:+ Go.Itoa id +:+ "/first_free/")
    client_all.EmptyStruct "" /\
  (forall in_ : record Domain KAddress,
      sends_record KAddress (CreateFirstFreeAddress id in_)
        "POST" ("/addresses/first_free/" +:+ Go.Itoa id +:+ "/") in_).
Proof.
  split; [ | split; [ | split ] ].
  - single_request @GetFirstFreeSubnet.
  - intros in_. record_sent @CreateFirstFreeSubnet.
  - single_request @GetFirstFreeAddress.
  - intros in_. record_sent @CreateFirstFreeAddress.
Qed.

End Writing.

Example CreateVLAN_confirmed :
  @controllers_rest.CreateVLAN examples_rest.confirming
    examples_rest.vlan42 examples_rest.start
  = (("Success", None),
     client_all.after_call examples_rest.start tt
       (client_all.CallSendRequest "POST" "/vlans/"
          (client_all.WireRecord KVLAN
             (vlans.VLANDTO.mk
                (phpipam.JSONIntString_of 0) (phpipam.JSONIntString_of 3)
                "mgmt" (phpipam.JSONIntString_of 42) "management" ""
                Go.nil_map))
          PtrString)).
Proof. reflexivity. Qed.

Example DeleteAddress_keeps_flag :
  client_all.issued examples_rest.start
    (@controllers_rest.DeleteAddress examples_rest.confirming 9
       (phpipam.BoolIntString_of true) examples_rest.start).2
  = [client_all.CallSendRequest "DELETE" "/addresses/9/"
       (client_all.RemoveDNSStruct (phpipam.BoolIntString_of true))
       PtrString].
Proof. reflexivity. Qed.

Example UpdateSubnetCustomFields_unknown_key :
  @controllers_rest.UpdateSubnetCustomFields examples_rest.confirming 4
    examples.unknown_update examples_rest.start
  = (("Success", None),
     client_all.after_call examples_rest.start tt
       (client_all.CallUpdateCustomFields 4 examples.unknown_update
          "subnets")).
Proof. reflexivity. Qed.
